(** * The counter hook of the dual-ledger engine

    A shallow embedding of [src/app/src/hooks/use-counter-program.ts]
    ([useCounterProgram]): the React state of the hook, its asynchronous
    operations as computations in a small state / exception / trace monad,
    and the two subscription effects as a step function over the listener
    tables of the two connections.

    Every remote call ([rpc], [fetch], [getAccountInfo], ...) is an event of
    the trace; what the remote side answers is taken from a [Responses]
    record, one per invocation, so every theorem is quantified over every
    possible answer of the two ledgers and of the signers. *)

From Stdlib Require Import String List ZArith Bool Lia.
Import ListNotations.
Open Scope string_scope.
Open Scope list_scope.

(** ** Data model *)

Definition PublicKey := string.

(** [IDL.address], the counter program. *)
Definition IDL_address : PublicKey :=
  "49NcALUBrB68LN1QpgfHB4G4TP6UJuyb7EG9QuwxcTVy".

(** [DELEGATION_PROGRAM_ID] (line 158). *)
Definition DELEGATION_PROGRAM_ID : PublicKey :=
  "DELeGGvXpWV2fqJUhqcF5ZSYMS4JTLjteaAMARRSaeSh".

(** [type DelegationStatus = "undelegated" | "delegated" | "checking"]. *)
Inductive DelegationStatus := undelegated | delegated | checking.

Definition status_eqb (a b : DelegationStatus) : bool :=
  match a, b with
  | undelegated, undelegated | delegated, delegated | checking, checking => true
  | _, _ => false
  end.

(** [interface CounterAccount { count: bigint; authority: PublicKey }]. *)
Record CounterAccount := mkCounterAccount {
  count : Z;
  authority : PublicKey
}.

(** What [connection.getAccountInfo] returns when the account exists. *)
Record AccountInfo := mkAccountInfo {
  ai_owner : PublicKey;
  ai_lamports : Z
}.

(** The two ledgers: [connection] (base layer) and [erConnection]. *)
Inductive Ledger := BaseLedger | RollupLedger.

(** [useWallet()]: the key and the two signing capabilities the hook tests. *)
Record Wallet := mkWallet {
  w_publicKey : option PublicKey;
  w_signTransaction : bool;
  w_signAllTransactions : bool
}.

(** [useSessionKeyManager(...)]: the fields the hook reads (line 107 and
    [performErAction]). The object itself is never null: line 107
    destructures it. *)
Record SessionWallet := mkSessionWallet {
  sw_publicKey : option PublicKey;
  sw_sessionToken : option string;
  sw_signTransaction : bool
}.

(** [new AnchorProvider(conn, wallet, { commitment: "confirmed" })]. *)
Record Provider := mkProvider {
  pv_connection : Ledger;
  pv_wallet : PublicKey;
  pv_commitment : string
}.

(** [new Program<Counter>(IDL, provider)]. *)
Record Program := mkProgram {
  pg_address : PublicKey;
  pg_provider : Provider
}.

(** The values one render of the hook closes over. [counterPubkey] is React
    state, but only the effect of line 123 writes it; the operations read it. *)
Record Render := mkRender {
  wallet : Wallet;
  counterPubkey : option PublicKey;
  sessionWallet : SessionWallet
}.

(** The pieces of [useState] the operations write. *)
Record HookState := mkHookState {
  counterAccount : option CounterAccount;
  isLoading : bool;
  isDelegating : bool;
  error : option string;
  delegationStatus : DelegationStatus;
  erCounterValue : option Z
}.

(** Initial values of the [useState] calls (lines 39-44). *)
Definition initialHookState : HookState :=
  mkHookState None false false None checking None.

(** A thrown JavaScript value: an [Error] with its message, or anything else
    (for which [err instanceof Error] is false). *)
Inductive JsThrown := JsError (message : string) | JsNonError.

(** The on-chain instructions of the IDL. *)
Inductive Method :=
| MInitialize | MIncrement | MDecrement | MSet (value : Z)
| MDelegate | MCommit | MUndelegate.

(** The object given to [.accounts({...})]: names with a key or [null]. *)
Definition Accounts := list (string * option string).

Inductive Credential := PrimaryWallet | SessionKey.

(** A web3.js [Transaction] as far as the hook touches it. *)
Record Transaction := mkTransaction {
  tx_method : Method;
  tx_accounts : Accounts;
  tx_feePayer : option PublicKey;
  tx_recentBlockhash : option string;
  tx_signedBy : list Credential
}.

(** [program.methods.m(...)], the first argument of [performErAction]. *)
Record MethodBuilder := mkMethodBuilder {
  mb_program : Program;
  mb_method : Method
}.

(** ** Memoised values (lines 47-97) *)

Definition walletReady (w : Wallet) : option PublicKey :=
  match w_publicKey w with
  | Some pk =>
      if w_signTransaction w && w_signAllTransactions w then Some pk else None
  | None => None
  end.

Definition program (r : Render) : option Program :=
  match walletReady (wallet r) with
  | Some pk => Some (mkProgram IDL_address (mkProvider BaseLedger pk "confirmed"))
  | None => None
  end.

Definition erProvider (r : Render) : option Provider :=
  match walletReady (wallet r) with
  | Some pk => Some (mkProvider RollupLedger pk "confirmed")
  | None => None
  end.

Definition erProgram (r : Render) : option Program :=
  match erProvider r with
  | Some p => Some (mkProgram IDL_address p)
  | None => None
  end.

(** ** Events and responses *)

Inductive Update :=
| SetCounterAccount (a : option CounterAccount)
| SetIsLoading (b : bool)
| SetIsDelegating (b : bool)
| SetError (e : option string)
| SetDelegationStatus (s : DelegationStatus)
| SetErCounterValue (v : option Z).

Inductive Event :=
| EvSet (u : Update)
  (** [p.methods.m().accounts(a).rpc(opts)]: Anchor builds the transaction,
      has the provider's wallet sign it, sends it on the provider's
      connection and confirms it at the provider's commitment. *)
| EvRpc (p : Program) (m : Method) (a : Accounts) (skipPreflight : bool)
  (** [builder.accounts(a).transaction()] *)
| EvTransaction (b : MethodBuilder) (a : Accounts)
| EvGetLatestBlockhash (l : Ledger)
| EvSignTransaction (c : Credential) (tx : Transaction)
| EvSendRawTransaction (l : Ledger) (tx : Transaction) (skipPreflight : bool)
| EvConfirmTransaction (l : Ledger) (txHash : string) (commitment : string)
  (** [p.account.counter.fetch(addr)] *)
| EvFetchCounter (p : Program) (addr : PublicKey)
| EvGetAccountInfo (l : Ledger) (addr : PublicKey)
| EvSetTimeout (ms : Z)
| EvGetCommitmentSignature (txHash : string) (l : Ledger).

(** How a call completes: with a value, or by throwing. *)
Inductive Completion (A : Type) :=
| Returned (a : A)
| Threw (e : JsThrown).
Arguments Returned {A} a.
Arguments Threw {A} e.

(** What the outside world answers during one invocation. *)
Record Responses := mkResponses {
  on_rpc : Completion string;
  on_transaction : Completion unit;
  on_er_getLatestBlockhash : Completion string;
  on_wallet_signTransaction : Completion unit;
  on_session_signTransaction : Completion unit;
  on_er_sendRawTransaction : Completion string;
  on_er_confirmTransaction : Completion unit;
  on_base_fetch : Completion CounterAccount;
  on_er_fetch : Completion CounterAccount;
  on_getAccountInfo : Completion (option AccountInfo);
  on_GetCommitmentSignature : Completion string
}.

(** ** The monad of asynchronous operations

    State passing over [HookState], JavaScript exceptions, and the trace of
    the events performed, in the order they happen. *)

Definition Async (A : Type) : Type :=
  HookState -> Completion A * HookState * list Event.

Definition ret {A} (a : A) : Async A := fun st => (Returned a, st, []).

Definition throw {A} (e : JsThrown) : Async A := fun st => (Threw e, st, []).

Definition bind {A B} (m : Async A) (k : A -> Async B) : Async B :=
  fun st =>
    match m st with
    | (Returned a, st1, t1) =>
        match k a st1 with
        | (c, st2, t2) => (c, st2, t1 ++ t2)
        end
    | (Threw e, st1, t1) => (Threw e, st1, t1)
    end.

(** [try { m } catch (err) { h err }] *)
Definition try_catch {A} (m : Async A) (h : JsThrown -> Async A) : Async A :=
  fun st =>
    match m st with
    | (Returned a, st1, t1) => (Returned a, st1, t1)
    | (Threw e, st1, t1) =>
        match h e st1 with
        | (c, st2, t2) => (c, st2, t1 ++ t2)
        end
    end.

(** [try { m } finally { f }] *)
Definition try_finally {A} (m : Async A) (f : Async unit) : Async A :=
  fun st =>
    match m st with
    | (c, st1, t1) =>
        match f st1 with
        | (Returned _, st2, t2) => (c, st2, t1 ++ t2)
        | (Threw e, st2, t2) => (Threw e, st2, t1 ++ t2)
        end
    end.

(** An awaited external call: logged, then completes as the world says. *)
Definition io {A} (ev : Event) (answer : Completion A) : Async A :=
  fun st => (answer, st, [ev]).

Declare Scope async_scope.
Delimit Scope async_scope with async.
Notation "x <- m ;; k" := (bind m (fun x => k))
  (at level 100, m at next level, right associativity) : async_scope.
Notation "m ;; k" := (bind m (fun _ => k))
  (at level 100, right associativity) : async_scope.
Open Scope async_scope.

(** The state setters. *)
Definition apply_update (u : Update) (st : HookState) : HookState :=
  match u with
  | SetCounterAccount a =>
      mkHookState a (isLoading st) (isDelegating st) (error st)
        (delegationStatus st) (erCounterValue st)
  | SetIsLoading b =>
      mkHookState (counterAccount st) b (isDelegating st) (error st)
        (delegationStatus st) (erCounterValue st)
  | SetIsDelegating b =>
      mkHookState (counterAccount st) (isLoading st) b (error st)
        (delegationStatus st) (erCounterValue st)
  | SetError e =>
      mkHookState (counterAccount st) (isLoading st) (isDelegating st) e
        (delegationStatus st) (erCounterValue st)
  | SetDelegationStatus s =>
      mkHookState (counterAccount st) (isLoading st) (isDelegating st)
        (error st) s (erCounterValue st)
  | SetErCounterValue v =>
      mkHookState (counterAccount st) (isLoading st) (isDelegating st)
        (error st) (delegationStatus st) v
  end.

Definition set_state (u : Update) : Async unit :=
  fun st => (Returned tt, apply_update u st, [EvSet u]).

Definition setCounterAccount a := set_state (SetCounterAccount a).
Definition setIsLoading b := set_state (SetIsLoading b).
Definition setIsDelegating b := set_state (SetIsDelegating b).
Definition setError e := set_state (SetError e).
Definition setDelegationStatus s := set_state (SetDelegationStatus s).
Definition setErCounterValue v := set_state (SetErCounterValue v).

(** Projections of a finished run. *)
Definition completion {A} (x : Completion A * HookState * list Event) := fst (fst x).
Definition final {A} (x : Completion A * HookState * list Event) := snd (fst x).
Definition trace {A} (x : Completion A * HookState * list Event) := snd x.

(** ** Helpers on strings and exceptions *)

(** [s.includes(sub)] *)
Fixpoint includes (s sub : string) : bool :=
  if String.prefix sub s then true
  else match s with
       | EmptyString => false
       | String _ s' => includes s' sub
       end.

(** [err instanceof Error ? err.message : fallback] *)
Definition errorMessage (err : JsThrown) (fallback : string) : string :=
  match err with
  | JsError m => m
  | JsNonError => fallback
  end.

(** ** Steps that run inside the browser: BN conversion and serialization *)

(** A local step that may throw and calls nothing outside, such as
    [coder.accounts.decode]. *)
Definition attempt {A} (c : Completion A) : Async A := fun st => (c, st, []).

(** The account named [name] in an [.accounts] object. *)
Fixpoint account (name : string) (a : Accounts) : option (option string) :=
  match a with
  | [] => None
  | (n, v) :: a' => if String.eqb n name then Some v else account name a'
  end.

Definition option_eqb {A} (eqb : A -> A -> bool) (a b : option A) : bool :=
  match a, b with
  | Some x, Some y => eqb x y
  | None, None => true
  | _, _ => false
  end.

(** [new BN(value)] for a JavaScript number: bn.js asserts that its
    magnitude is below 2^53 and throws [Error("Assertion failed")]
    otherwise. *)
Definition newBN (value : Z) : Completion Z :=
  if (Z.abs value <? 2 ^ 53)%Z then Returned value
  else Threw (JsError "Assertion failed").

(** The accounts the IDL marks [signer: true], by instruction. *)
Definition signerAccounts (m : Method) : list string :=
  match m with
  | MInitialize => ["authority"]
  | MIncrement | MDecrement | MSet _ => ["signer"]
  | MDelegate | MCommit | MUndelegate => ["payer"]
  end.

(** The key a credential signs with. *)
Definition keyOf (r : Render) (c : Credential) : option PublicKey :=
  match c with
  | PrimaryWallet => w_publicKey (wallet r)
  | SessionKey => sw_publicKey (sessionWallet r)
  end.

(** The keys whose signature a transaction needs: its fee payer and the
    signer accounts of its instruction. *)
Definition requiredSigners (tx : Transaction) : list (option PublicKey) :=
  tx_feePayer tx
  :: map (fun name => match account name (tx_accounts tx) with
                      | Some key => key
                      | None => None
                      end)
       (signerAccounts (tx_method tx)).

(** Whether [tx] carries the signature of [key]; a null key has none. *)
Definition hasSignature (r : Render) (tx : Transaction) (key : option PublicKey) : bool :=
  match key with
  | Some k =>
      existsb (fun c => option_eqb String.eqb (keyOf r c) (Some k)) (tx_signedBy tx)
  | None => false
  end.

(** [tx.serialize()] with web3.js' defaults: it needs a fee payer and
    verifies that every required signer has signed. The keys of
    [tx_signedBy] are the [publicKey] fields of the two wallets. *)
Definition serialize (r : Render) (tx : Transaction) : Completion Transaction :=
  match tx_feePayer tx with
  | None => Threw (JsError "Transaction fee payer required")
  | Some _ =>
      if forallb (hasSignature r tx) (requiredSigners tx) then Returned tx
      else Threw (JsError "Signature verification failed")
  end.

(** ** Reads *)

(** [fetchCounterAccount] (lines 133-155). *)
Definition fetchCounterAccount (r : Render) (env : Responses) : Async unit :=
  match program r, counterPubkey r with
  | Some prog, Some pda =>
      try_catch
        (account <- io (EvFetchCounter prog pda) (on_base_fetch env) ;;
         setCounterAccount (Some (mkCounterAccount (count account) (authority account))) ;;
         setError None)
        (fun err =>
           setCounterAccount None ;;
           match err with
           | JsError m =>
               if negb (includes m "Account does not exist")
                  && negb (includes m "could not find account")
               then setError (Some m)
               else ret tt
           | JsNonError => ret tt
           end)
  | _, _ => setCounterAccount None
  end.

(** [checkDelegationStatus] (lines 161-204). *)
Definition checkDelegationStatus (r : Render) (env : Responses) : Async unit :=
  match counterPubkey r with
  | None => setDelegationStatus checking
  | Some pda =>
      try_catch
        (setDelegationStatus checking ;;
         accountInfo <- io (EvGetAccountInfo BaseLedger pda) (on_getAccountInfo env) ;;
         match accountInfo with
         | None =>
             setDelegationStatus undelegated ;;
             setErCounterValue None
         | Some info =>
             let isDelegated := String.eqb (ai_owner info) DELEGATION_PROGRAM_ID in
             if isDelegated then
               setDelegationStatus delegated ;;
               match erProgram r with
               | Some erp =>
                   try_catch
                     (account <- io (EvFetchCounter erp pda) (on_er_fetch env) ;;
                      setErCounterValue (Some (count account)))
                     (fun _ => ret tt)
               | None => ret tt
               end
             else
               (setDelegationStatus undelegated ;;
                setErCounterValue None)
         end)
        (fun _ =>
           setDelegationStatus undelegated ;;
           setErCounterValue None)
  end.

(** ** Mutating operations on the base layer *)

(** [initialize] (lines 264-290). *)
Definition initialize (r : Render) (env : Responses) : Async string :=
  match program r, w_publicKey (wallet r) with
  | Some prog, Some pk =>
      setIsLoading true ;;
      setError None ;;
      try_finally
        (try_catch
           (tx <- io (EvRpc prog MInitialize [("authority", Some pk)] false)
                     (on_rpc env) ;;
            fetchCounterAccount r env ;;
            ret tx)
           (fun err =>
              setError (Some (errorMessage err "Failed to initialize counter")) ;;
              throw err))
        (setIsLoading false)
  | _, _ => throw (JsError "Wallet not connected")
  end.

(** What [increment], [decrement] and [set] hand to [.accounts]
    (lines 304-308, 424-428, 453-457). *)
Definition baseAccounts (pda pk : PublicKey) : Accounts :=
  [("counter", Some pda); ("signer", Some pk); ("sessionToken", None)].

(** [increment] (lines 293-319). *)
Definition increment (r : Render) (env : Responses) : Async string :=
  match program r, w_publicKey (wallet r), counterPubkey r with
  | Some prog, Some pk, Some pda =>
      setIsLoading true ;;
      setError None ;;
      try_finally
        (try_catch
           (tx <- io (EvRpc prog MIncrement (baseAccounts pda pk) false)
                     (on_rpc env) ;;
            ret tx)
           (fun err =>
              setError (Some (errorMessage err "Failed to increment counter")) ;;
              throw err))
        (setIsLoading false)
  | _, _, _ => throw (JsError "Counter not initialized")
  end.

(** [decrement] (lines 413-439). *)
Definition decrement (r : Render) (env : Responses) : Async string :=
  match program r, w_publicKey (wallet r), counterPubkey r with
  | Some prog, Some pk, Some pda =>
      setIsLoading true ;;
      setError None ;;
      try_finally
        (try_catch
           (tx <- io (EvRpc prog MDecrement (baseAccounts pda pk) false)
                     (on_rpc env) ;;
            ret tx)
           (fun err =>
              setError (Some (errorMessage err "Failed to decrement counter")) ;;
              throw err))
        (setIsLoading false)
  | _, _, _ => throw (JsError "Counter not initialized")
  end.

(** [set] (lines 442-468); [new BN(value)] is evaluated inside the [try]. *)
Definition set (value : Z) (r : Render) (env : Responses) : Async string :=
  match program r, w_publicKey (wallet r), counterPubkey r with
  | Some prog, Some pk, Some pda =>
      setIsLoading true ;;
      setError None ;;
      try_finally
        (try_catch
           (bn <- attempt (newBN value) ;;
            tx <- io (EvRpc prog (MSet bn) (baseAccounts pda pk) false)
                     (on_rpc env) ;;
            ret tx)
           (fun err =>
              setError (Some (errorMessage err "Failed to set counter")) ;;
              throw err))
        (setIsLoading false)
  | _, _, _ => throw (JsError "Counter not initialized")
  end.

(** ** Operations on the ephemeral rollup *)

(** [hasSession] (line 334); [sessionWallet != null] always holds. *)
Definition hasSession (r : Render) : bool :=
  match sw_sessionToken (sessionWallet r) with
  | Some _ => true
  | None => false
  end.

(** The test of line 353. *)
Definition sessionSigns (r : Render) : bool :=
  hasSession r && sw_signTransaction (sessionWallet r).

(** The [accounts] object of lines 338-342. *)
Definition erAccounts (r : Render) (pda : PublicKey) : Accounts :=
  [("counter", Some pda);
   ("signer", if hasSession r then sw_publicKey (sessionWallet r)
              else w_publicKey (wallet r));
   ("sessionToken", if hasSession r then sw_sessionToken (sessionWallet r)
                    else None)].

(** The transaction after lines 345-351: built, then [feePayer] and
    [recentBlockhash] assigned. *)
Definition erDraft (r : Render) (b : MethodBuilder) (pda : PublicKey)
    (blockhash : string) : Transaction :=
  mkTransaction (mb_method b) (erAccounts r pda) (w_publicKey (wallet r))
    (Some blockhash) [].

Definition withFeePayer (tx : Transaction) (payer : option PublicKey) : Transaction :=
  mkTransaction (tx_method tx) (tx_accounts tx) payer (tx_recentBlockhash tx)
    (tx_signedBy tx).

Definition signedBy (tx : Transaction) (c : Credential) : Transaction :=
  mkTransaction (tx_method tx) (tx_accounts tx) (tx_feePayer tx)
    (tx_recentBlockhash tx) (tx_signedBy tx ++ [c]).

(** Lines 353-366: who signs, and who pays. *)
Definition signForRollup (r : Render) (env : Responses) (tx : Transaction)
    : Async Transaction :=
  if sessionSigns r then
    let tx1 := withFeePayer tx (sw_publicKey (sessionWallet r)) in
    io (EvSignTransaction SessionKey tx1) (on_session_signTransaction env) ;;
    ret (signedBy tx1 SessionKey)
  else
    io (EvSignTransaction PrimaryWallet tx) (on_wallet_signTransaction env) ;;
    ret (signedBy tx PrimaryWallet).

(** [performErAction] (lines 321-392). *)
Definition performErAction (methodBuilder : MethodBuilder) (actionName : string)
    (r : Render) (env : Responses) : Async string :=
  match program r, erProvider r, w_publicKey (wallet r), counterPubkey r with
  | Some _, Some _, Some _, Some pda =>
      setIsLoading true ;;
      setError None ;;
      try_finally
        (try_catch
           (io (EvTransaction methodBuilder (erAccounts r pda)) (on_transaction env) ;;
            blockhash <- io (EvGetLatestBlockhash RollupLedger)
                            (on_er_getLatestBlockhash env) ;;
            tx <- signForRollup r env (erDraft r methodBuilder pda blockhash) ;;
            raw <- attempt (serialize r tx) ;;
            txHash <- io (EvSendRawTransaction RollupLedger raw true)
                         (on_er_sendRawTransaction env) ;;
            io (EvConfirmTransaction RollupLedger txHash "confirmed")
               (on_er_confirmTransaction env) ;;
            match erProgram r with
            | Some erp =>
                try_catch
                  (account <- io (EvFetchCounter erp pda) (on_er_fetch env) ;;
                   setErCounterValue (Some (count account)))
                  (fun _ => ret tt)
            | None => ret tt
            end ;;
            ret txHash)
           (fun err =>
              setError (Some (errorMessage err
                                ("Failed to " ++ actionName ++ " on ER")%string)) ;;
              throw err))
        (setIsLoading false)
  | _, _, _, _ => throw (JsError "Counter not initialized or not delegated")
  end.

(** [incrementOnER] (lines 395-398). *)
Definition incrementOnER (r : Render) (env : Responses) : Async string :=
  match program r with
  | None => throw (JsError "Program not loaded")
  | Some prog => performErAction (mkMethodBuilder prog MIncrement) "increment" r env
  end.

(** [decrementOnER] (lines 401-404). *)
Definition decrementOnER (r : Render) (env : Responses) : Async string :=
  match program r with
  | None => throw (JsError "Program not loaded")
  | Some prog => performErAction (mkMethodBuilder prog MDecrement) "decrement" r env
  end.

(** [setOnER] (lines 407-410); [new BN(value)] is evaluated before
    [performErAction] is entered. *)
Definition setOnER (value : Z) (r : Render) (env : Responses) : Async string :=
  match program r with
  | None => throw (JsError "Program not loaded")
  | Some prog =>
      bn <- attempt (newBN value) ;;
      performErAction (mkMethodBuilder prog (MSet bn)) "set" r env
  end.

(** ** Delegation, commit, undelegation *)

(** [delegate] (lines 475-509). *)
Definition delegate (r : Render) (env : Responses) : Async string :=
  match program r, w_publicKey (wallet r) with
  | Some prog, Some pk =>
      setIsLoading true ;;
      setIsDelegating true ;;
      setError None ;;
      try_finally
        (try_catch
           (tx <- io (EvRpc prog MDelegate [("payer", Some pk)] true) (on_rpc env) ;;
            io (EvSetTimeout 2000) (Returned tt) ;;
            checkDelegationStatus r env ;;
            ret tx)
           (fun err =>
              setError (Some (errorMessage err "Failed to delegate counter")) ;;
              throw err))
        (setIsLoading false ;;
         setIsDelegating false)
  | _, _ => throw (JsError "Wallet not connected")
  end.

(** Lines 522-538 of [commit] and 574-590 of [undelegate]: build with the
    base program, aim at the rollup, sign with the provider's wallet, send
    raw, confirm. *)
Definition sendToRollup (prog : Program) (m : Method) (r : Render)
    (env : Responses) : Async string :=
  let accounts : Accounts := [("payer", w_publicKey (wallet r))] in
  io (EvTransaction (mkMethodBuilder prog m) accounts) (on_transaction env) ;;
  blockhash <- io (EvGetLatestBlockhash RollupLedger)
                  (on_er_getLatestBlockhash env) ;;
  let tx := mkTransaction m accounts (w_publicKey (wallet r)) (Some blockhash) [] in
  io (EvSignTransaction PrimaryWallet tx) (on_wallet_signTransaction env) ;;
  raw <- attempt (serialize r (signedBy tx PrimaryWallet)) ;;
  txHash <- io (EvSendRawTransaction RollupLedger raw true)
               (on_er_sendRawTransaction env) ;;
  io (EvConfirmTransaction RollupLedger txHash "confirmed")
     (on_er_confirmTransaction env) ;;
  ret txHash.

(** [commit] (lines 512-561). *)
Definition commit (r : Render) (env : Responses) : Async string :=
  match program r, erProvider r, w_publicKey (wallet r), counterPubkey r with
  | Some prog, Some _, Some _, Some _ =>
      setIsLoading true ;;
      setError None ;;
      try_finally
        (try_catch
           (txHash <- sendToRollup prog MCommit r env ;;
            try_catch
              (io (EvGetCommitmentSignature txHash RollupLedger)
                  (on_GetCommitmentSignature env) ;;
               ret tt)
              (fun _ => ret tt) ;;
            fetchCounterAccount r env ;;
            ret txHash)
           (fun err =>
              setError (Some (errorMessage err "Failed to commit counter")) ;;
              throw err))
        (setIsLoading false)
  | _, _, _, _ => throw (JsError "Counter not initialized or not delegated")
  end.

(** [undelegate] (lines 564-610). *)
Definition undelegate (r : Render) (env : Responses) : Async string :=
  match program r, erProvider r, w_publicKey (wallet r), counterPubkey r with
  | Some prog, Some _, Some _, Some _ =>
      setIsLoading true ;;
      setError None ;;
      try_finally
        (try_catch
           (txHash <- sendToRollup prog MUndelegate r env ;;
            io (EvSetTimeout 2000) (Returned tt) ;;
            setDelegationStatus undelegated ;;
            setErCounterValue None ;;
            fetchCounterAccount r env ;;
            ret txHash)
           (fun err =>
              setError (Some (errorMessage err "Failed to undelegate counter")) ;;
              throw err))
        (setIsLoading false)
  | _, _, _, _ => throw (JsError "Counter not initialized or not delegated")
  end.

(** ** Equality tests *)

Definition ledger_eqb (a b : Ledger) : bool :=
  match a, b with
  | BaseLedger, BaseLedger | RollupLedger, RollupLedger => true
  | _, _ => false
  end.

(** ** The two subscription effects (lines 207-261)

    A web3.js connection keeps a table of account-change listeners;
    [onAccountChange] adds one and returns its id,
    [removeAccountChangeListener] drops the one with that id. React runs an
    effect after the first render and after every render in which a
    dependency changed (by [Object.is]); before it re-runs the effect it
    runs the clean-up function the previous run returned. *)

Record Listener := mkListener {
  l_id : nat;
  l_address : PublicKey;
  l_commitment : string
}.

Record Connection := mkConnection {
  listeners : list Listener;
  nextId : nat
}.

Definition onAccountChange (c : Connection) (addr : PublicKey)
    (commitment : string) : nat * Connection :=
  (nextId c,
   mkConnection (listeners c ++ [mkListener (nextId c) addr commitment])
     (S (nextId c))).

Definition removeAccountChangeListener (c : Connection) (id : nat) : Connection :=
  mkConnection (filter (fun l => negb (Nat.eqb (l_id l) id)) (listeners c))
    (nextId c).

(** [new Connection(ER_ENDPOINT, ...)] (line 69), memoised with no
    dependency: created once, private to the hook. *)
Definition newConnection : Connection := mkConnection [] 0.

(** The dependencies of the rollup effect that can change (line 261). *)
Record ErDeps := mkErDeps {
  ed_erProgram : option Program;
  ed_counterPubkey : option PublicKey;
  ed_delegationStatus : DelegationStatus
}.

(** The dependencies of the base effect (line 237); the two callbacks change
    with [program], [counterPubkey] and [erProgram]. *)
Record BaseDeps := mkBaseDeps {
  bd_program : option Program;
  bd_counterPubkey : option PublicKey;
  bd_erProgram : option Program
}.

Definition erDeps (r : Render) (st : HookState) : ErDeps :=
  mkErDeps (erProgram r) (counterPubkey r) (delegationStatus st).

Definition baseDeps (r : Render) : BaseDeps :=
  mkBaseDeps (program r) (counterPubkey r) (erProgram r).

Definition provider_eqb (a b : Provider) : bool :=
  ledger_eqb (pv_connection a) (pv_connection b)
  && String.eqb (pv_wallet a) (pv_wallet b)
  && String.eqb (pv_commitment a) (pv_commitment b).

Definition program_eqb (a b : Program) : bool :=
  String.eqb (pg_address a) (pg_address b)
  && provider_eqb (pg_provider a) (pg_provider b).

Definition erDeps_eqb (a b : ErDeps) : bool :=
  option_eqb program_eqb (ed_erProgram a) (ed_erProgram b)
  && option_eqb String.eqb (ed_counterPubkey a) (ed_counterPubkey b)
  && status_eqb (ed_delegationStatus a) (ed_delegationStatus b).

Definition baseDeps_eqb (a b : BaseDeps) : bool :=
  option_eqb program_eqb (bd_program a) (bd_program b)
  && option_eqb String.eqb (bd_counterPubkey a) (bd_counterPubkey b)
  && option_eqb program_eqb (bd_erProgram a) (bd_erProgram b).

(** The body of the rollup effect (lines 241-260): the id whose listener the
    returned clean-up removes, if it subscribed. *)
Definition erEffect (d : ErDeps) (c : Connection) : option nat * Connection :=
  match ed_erProgram d, ed_counterPubkey d with
  | Some _, Some pda =>
      if status_eqb (ed_delegationStatus d) delegated then
        let (subscriptionId, c') := onAccountChange c pda "confirmed" in
        (Some subscriptionId, c')
      else (None, c)
  | _, _ => (None, c)
  end.

(** The subscribing part of the base effect (lines 208-236). The two calls
    of lines 212-213 are not awaited; what they write arrives as later
    renders. *)
Definition baseEffect (d : BaseDeps) (c : Connection) : option nat * Connection :=
  match bd_program d, bd_counterPubkey d with
  | Some _, Some pda =>
      let (subscriptionId, c') := onAccountChange c pda "confirmed" in
      (Some subscriptionId, c')
  | _, _ => (None, c)
  end.

Definition runCleanup (cleanup : option nat) (c : Connection) : Connection :=
  match cleanup with
  | Some subscriptionId => removeAccountChangeListener c subscriptionId
  | None => c
  end.

(** One mounted hook: the last committed render, the two connections, and
    for each effect the dependencies it last ran with and its clean-up. *)
Record Engine := mkEngine {
  e_render : Render;
  e_state : HookState;
  e_connection : Connection;
  e_erConnection : Connection;
  e_baseDeps : BaseDeps;
  e_baseCleanup : option nat;
  e_erDeps : ErDeps;
  e_erCleanup : option nat
}.

(** First render: both effects run. [connection] comes from the wallet
    adapter's context and may already carry other listeners. *)
Definition mount (connection : Connection) (r : Render) (st : HookState) : Engine :=
  let (bc, c1) := baseEffect (baseDeps r) connection in
  let (ec, c2) := erEffect (erDeps r st) newConnection in
  mkEngine r st c1 c2 (baseDeps r) bc (erDeps r st) ec.

(** A later render with new wallet, session or state. [fresh] tells that a
    dependency is a new object although it compares equal as a value, which
    also makes React run the effects again. *)
Definition rerender (fresh : bool) (r : Render) (st : HookState) (e : Engine) : Engine :=
  let bd := baseDeps r in
  let ed := erDeps r st in
  let (bc, c1) :=
    if fresh || negb (baseDeps_eqb (e_baseDeps e) bd)
    then baseEffect bd (runCleanup (e_baseCleanup e) (e_connection e))
    else (e_baseCleanup e, e_connection e) in
  let (ec, c2) :=
    if fresh || negb (erDeps_eqb (e_erDeps e) ed)
    then erEffect ed (runCleanup (e_erCleanup e) (e_erConnection e))
    else (e_erCleanup e, e_erConnection e) in
  mkEngine r st c1 c2 bd bc ed ec.

(** The states a mounted hook goes through. *)
Inductive lifecycle : Engine -> Prop :=
| lc_mount (connection : Connection) (r : Render) (st : HookState) :
    lifecycle (mount connection r st)
| lc_rerender (fresh : bool) (r : Render) (st : HookState) (e : Engine) :
    lifecycle e -> lifecycle (rerender fresh r st e).

(** The precondition of the rollup subscription (line 241), on the committed
    render. *)
Definition erSubscriptionWanted (e : Engine) : bool :=
  match erProgram (e_render e), counterPubkey (e_render e) with
  | Some _, Some _ => status_eqb (delegationStatus (e_state e)) delegated
  | _, _ => false
  end.

(** Whether a rollup account-change subscription is live. *)
Definition erSubscribed (e : Engine) : bool :=
  match listeners (e_erConnection e) with
  | [] => false
  | _ :: _ => true
  end.

(** ** Classifying events *)

Definition ledgerOf (p : Program) : Ledger := pv_connection (pg_provider p).

(** A read of the counter account through the rollup program. *)
Definition isRollupRead (ev : Event) : bool :=
  match ev with
  | EvFetchCounter p _ => ledger_eqb (ledgerOf p) RollupLedger
  | _ => false
  end.

(** A fetch of the counter account through the base-layer program. *)
Definition isBaseFetch (ev : Event) : bool :=
  match ev with
  | EvFetchCounter p _ => ledger_eqb (ledgerOf p) BaseLedger
  | _ => false
  end.

(** The read of the owner that [checkDelegationStatus] starts with. *)
Definition isOwnerRead (ev : Event) : bool :=
  match ev with
  | EvGetAccountInfo _ _ => true
  | _ => false
  end.

(** A transaction handed to a ledger, by [rpc] or by [sendRawTransaction]. *)
Definition isSubmission (ev : Event) : bool :=
  match ev with
  | EvRpc _ _ _ _ | EvSendRawTransaction _ _ _ => true
  | _ => false
  end.

(** Any use of the base layer. *)
Definition touchesBase (ev : Event) : bool :=
  match ev with
  | EvRpc p _ _ _ | EvFetchCounter p _ => ledger_eqb (ledgerOf p) BaseLedger
  | EvGetLatestBlockhash l | EvSendRawTransaction l _ _
  | EvConfirmTransaction l _ _ | EvGetAccountInfo l _ => ledger_eqb l BaseLedger
  | _ => false
  end.

(** An external call, as opposed to a state setter. *)
Definition isExternal (ev : Event) : bool :=
  match ev with
  | EvSet _ => false
  | _ => true
  end.

(** ** Sample renders and worlds, used to run the operations *)

(** A connected wallet able to sign. *)
Definition aliceWallet : Wallet := mkWallet (Some "alice") true true.

(** A connected wallet that exposes a key but cannot sign transactions. *)
Definition readOnlyWallet : Wallet := mkWallet (Some "alice") false false.

Definition noSession : SessionWallet := mkSessionWallet None None false.

Definition liveSession : SessionWallet :=
  mkSessionWallet (Some "sessionKey") (Some "sessionToken") true.


Definition connected (s : SessionWallet) : Render :=
  mkRender aliceWallet (Some "pda") s.

Definition disconnected : Render :=
  mkRender (mkWallet None false false) None noSession.

(** Every remote call succeeds; the counter account is owned by [owner]. *)
Definition allSucceed (owner : PublicKey) : Responses :=
  mkResponses (Returned "sig") (Returned tt) (Returned "blockhash")
    (Returned tt) (Returned tt) (Returned "erSig") (Returned tt)
    (Returned (mkCounterAccount 7 "alice"))
    (Returned (mkCounterAccount 9 "alice"))
    (Returned (Some (mkAccountInfo owner 1)))
    (Returned "commitSig").

Definition withBaseFetch (env : Responses) (a : Completion CounterAccount) : Responses :=
  mkResponses (on_rpc env) (on_transaction env) (on_er_getLatestBlockhash env)
    (on_wallet_signTransaction env) (on_session_signTransaction env)
    (on_er_sendRawTransaction env) (on_er_confirmTransaction env)
    a (on_er_fetch env) (on_getAccountInfo env) (on_GetCommitmentSignature env).

Definition withErFetch (env : Responses) (a : Completion CounterAccount) : Responses :=
  mkResponses (on_rpc env) (on_transaction env) (on_er_getLatestBlockhash env)
    (on_wallet_signTransaction env) (on_session_signTransaction env)
    (on_er_sendRawTransaction env) (on_er_confirmTransaction env)
    (on_base_fetch env) a (on_getAccountInfo env) (on_GetCommitmentSignature env).

Definition withAccountInfo (env : Responses)
    (a : Completion (option AccountInfo)) : Responses :=
  mkResponses (on_rpc env) (on_transaction env) (on_er_getLatestBlockhash env)
    (on_wallet_signTransaction env) (on_session_signTransaction env)
    (on_er_sendRawTransaction env) (on_er_confirmTransaction env)
    (on_base_fetch env) (on_er_fetch env) a (on_GetCommitmentSignature env).

Definition withRpc (env : Responses) (a : Completion string) : Responses :=
  mkResponses a (on_transaction env) (on_er_getLatestBlockhash env)
    (on_wallet_signTransaction env) (on_session_signTransaction env)
    (on_er_sendRawTransaction env) (on_er_confirmTransaction env)
    (on_base_fetch env) (on_er_fetch env) (on_getAccountInfo env)
    (on_GetCommitmentSignature env).

(** A state left over from earlier activity: an old error is displayed. *)
Definition staleState : HookState :=
  mkHookState None false false (Some "old error") undelegated None.

Definition delegatedState : HookState :=
  mkHookState (Some (mkCounterAccount 7 "alice")) false false None delegated (Some 9%Z).

(** ** The two programs of a connected wallet *)

(** The base-layer program of a wallet whose key is [pk] (lines 52-64). *)
Definition baseProgram (pk : PublicKey) : Program :=
  mkProgram IDL_address (mkProvider BaseLedger pk "confirmed").

(** The rollup program of a wallet whose key is [pk] (lines 80-96). *)
Definition rollupProgram (pk : PublicKey) : Program :=
  mkProgram IDL_address (mkProvider RollupLedger pk "confirmed").

(** ** The rollup routine *)

(** The credential that signs a rollup action, and the fee payer it puts on
    the transaction (lines 350-366). *)
Definition rollupSigner (r : Render) : Credential :=
  if sessionSigns r then SessionKey else PrimaryWallet.

Definition rollupFeePayer (r : Render) : option PublicKey :=
  if sessionSigns r then sw_publicKey (sessionWallet r)
  else w_publicKey (wallet r).

(** The transaction a rollup action hands to the signer. *)
Definition rollupUnsigned (r : Render) (b : MethodBuilder) (pda : PublicKey)
    (blockhash : string) : Transaction :=
  mkTransaction (mb_method b) (erAccounts r pda) (rollupFeePayer r)
    (Some blockhash) [].

(** The external calls of a rollup action that runs to the end. *)
Definition rollupCalls (r : Render) (b : MethodBuilder) (pk pda : PublicKey)
    (blockhash txHash : string) : list Event :=
  [EvTransaction b (erAccounts r pda);
   EvGetLatestBlockhash RollupLedger;
   EvSignTransaction (rollupSigner r) (rollupUnsigned r b pda blockhash);
   EvSendRawTransaction RollupLedger
     (signedBy (rollupUnsigned r b pda blockhash) (rollupSigner r)) true;
   EvConfirmTransaction RollupLedger txHash "confirmed";
   EvFetchCounter (rollupProgram pk) pda].

(** The transaction a rollup action hands to [serialize] and then sends. *)
Definition rollupSigned (r : Render) (b : MethodBuilder) (pda : PublicKey)
    (blockhash : string) : Transaction :=
  signedBy (rollupUnsigned r b pda blockhash) (rollupSigner r).

(** The answer of whichever signer [performErAction] asks. *)
Definition on_rollup_signTransaction (r : Render) (env : Responses) : Completion unit :=
  if sessionSigns r then on_session_signTransaction env
  else on_wallet_signTransaction env.

(** ** The operations as one family *)

Inductive Operation :=
| OpInitialize | OpIncrement | OpDecrement | OpSet (value : Z)
| OpIncrementOnER | OpDecrementOnER | OpSetOnER (value : Z)
| OpDelegate | OpCommit | OpUndelegate.

Definition runOp (op : Operation) : Render -> Responses -> Async string :=
  match op with
  | OpInitialize => initialize
  | OpIncrement => increment
  | OpDecrement => decrement
  | OpSet v => set v
  | OpIncrementOnER => incrementOnER
  | OpDecrementOnER => decrementOnER
  | OpSetOnER v => setOnER v
  | OpDelegate => delegate
  | OpCommit => commit
  | OpUndelegate => undelegate
  end.

Definition isSome {A} (o : option A) : bool :=
  match o with Some _ => true | None => false end.

(** The guard at the head of each operation, negated. *)
Definition ready (op : Operation) (r : Render) : bool :=
  match op with
  | OpInitialize | OpDelegate => isSome (program r) && isSome (w_publicKey (wallet r))
  | OpIncrement | OpDecrement | OpSet _ =>
      isSome (program r) && isSome (w_publicKey (wallet r))
      && isSome (counterPubkey r)
  | _ =>
      isSome (program r) && isSome (erProvider r)
      && isSome (w_publicKey (wallet r)) && isSome (counterPubkey r)
  end.

(** The four mutating operations of the base layer. *)
Definition isBaseOp (op : Operation) : bool :=
  match op with
  | OpInitialize | OpIncrement | OpDecrement | OpSet _ => true
  | _ => false
  end.

(** The three rollup actions, which go through [performErAction]. *)
Definition isRollupAction (op : Operation) : bool :=
  match op with
  | OpIncrementOnER | OpDecrementOnER | OpSetOnER _ => true
  | _ => false
  end.

(** The operations that end by calling [fetchCounterAccount]. *)
Definition refreshes (op : Operation) : bool :=
  match op with
  | OpInitialize | OpCommit | OpUndelegate => true
  | _ => false
  end.

(** The instruction an operation sends. *)
Definition methodOf (op : Operation) : Method :=
  match op with
  | OpInitialize => MInitialize
  | OpIncrement | OpIncrementOnER => MIncrement
  | OpDecrement | OpDecrementOnER => MDecrement
  | OpSet v | OpSetOnER v => MSet v
  | OpDelegate => MDelegate
  | OpCommit => MCommit
  | OpUndelegate => MUndelegate
  end.

(** The message of the [catch] block when the thrown value is no [Error]. *)
Definition fallbackMessage (op : Operation) : string :=
  match op with
  | OpInitialize => "Failed to initialize counter"
  | OpIncrement => "Failed to increment counter"
  | OpDecrement => "Failed to decrement counter"
  | OpSet _ => "Failed to set counter"
  | OpIncrementOnER => "Failed to increment on ER"
  | OpDecrementOnER => "Failed to decrement on ER"
  | OpSetOnER _ => "Failed to set on ER"
  | OpDelegate => "Failed to delegate counter"
  | OpCommit => "Failed to commit counter"
  | OpUndelegate => "Failed to undelegate counter"
  end.

(** The setters every operation calls before its [try]. *)
Definition entryWrites (op : Operation) : list Event :=
  match op with
  | OpDelegate =>
      [EvSet (SetIsLoading true); EvSet (SetIsDelegating true); EvSet (SetError None)]
  | _ => [EvSet (SetIsLoading true); EvSet (SetError None)]
  end.

(** Replays a trace and tells whether every external call happens while the
    busy flag is up; [busy] is the flag before the first event. *)
Fixpoint callsWhileBusy (busy : bool) (t : list Event) : bool :=
  match t with
  | [] => true
  | EvSet (SetIsLoading b) :: t' => callsWhileBusy b t'
  | ev :: t' => (if isExternal ev then busy else true) && callsWhileBusy busy t'
  end.

(** The test of line 151 on the message of a failed fetch. *)
Definition unexpectedFetchError (m : string) : bool :=
  negb (includes m "Account does not exist")
  && negb (includes m "could not find account").

(** What [fetchCounterAccount] leaves in an error slot that was clear. *)
Definition refreshError (r : Render) (env : Responses) : option string :=
  match program r, counterPubkey r with
  | Some _, Some _ =>
      match on_base_fetch env with
      | Threw (JsError m) => if unexpectedFetchError m then Some m else None
      | _ => None
      end
  | _, _ => None
  end.

(** Whether an event involves the session: a signature by the session key,
    or an instruction that is given a session token. *)
Definition usesSession (ev : Event) : bool :=
  match ev with
  | EvSignTransaction SessionKey _ => true
  | EvSendRawTransaction _ tx _ =>
      existsb (fun c => match c with SessionKey => true | _ => false end)
        (tx_signedBy tx)
      || isSome (match account "sessionToken" (tx_accounts tx) with
                 | Some v => v | None => None end)
  | EvRpc _ _ a _ | EvTransaction _ a =>
      isSome (match account "sessionToken" a with Some v => v | None => None end)
  | _ => false
  end.

Definition withSession (r : Render) (s : SessionWallet) : Render :=
  mkRender (wallet r) (counterPubkey r) s.

(** The setters [fetchCounterAccount] calls, by what the fetch answers. *)
Definition refreshWrites (answer : Completion CounterAccount) : list Event :=
  match answer with
  | Returned a =>
      [EvSet (SetCounterAccount (Some (mkCounterAccount (count a) (authority a))));
       EvSet (SetError None)]
  | Threw (JsError m) =>
      EvSet (SetCounterAccount None)
      :: (if unexpectedFetchError m then [EvSet (SetError (Some m))] else [])
  | Threw JsNonError => [EvSet (SetCounterAccount None)]
  end.

(** The calls by which [commit] and [undelegate] put the instruction [m] on
    the rollup (lines 522-538 and 574-590), when each of them answers. *)
Definition rollupSubmission (m : Method) (pk : PublicKey)
    (blockhash txHash : string) : list Event :=
  let accounts : Accounts := [("payer", Some pk)] in
  let tx := mkTransaction m accounts (Some pk) (Some blockhash) [] in
  [EvTransaction (mkMethodBuilder (baseProgram pk) m) accounts;
   EvGetLatestBlockhash RollupLedger;
   EvSignTransaction PrimaryWallet tx;
   EvSendRawTransaction RollupLedger (signedBy tx PrimaryWallet) true;
   EvConfirmTransaction RollupLedger txHash "confirmed"].

(** A call of [checkDelegationStatus] shows in the trace by its first setter
    or by its read of the owner. *)
Definition isStatusCheck (ev : Event) : bool :=
  match ev with
  | EvSet (SetDelegationStatus checking) => true
  | EvGetAccountInfo _ _ => true
  | _ => false
  end.

(** What the engine keeps true of its rollup effect: the dependencies it
    recorded are those of the committed render, and the listener table of
    the rollup connection holds exactly the listener its clean-up will
    remove. *)
Definition er_consistent (e : Engine) : Prop :=
  e_erDeps e = erDeps (e_render e) (e_state e) /\
  match e_erCleanup e with
  | Some id =>
      exists pda, counterPubkey (e_render e) = Some pda /\
        listeners (e_erConnection e) = [mkListener id pda "confirmed"] /\
        erSubscriptionWanted e = true
  | None =>
      listeners (e_erConnection e) = [] /\ erSubscriptionWanted e = false
  end.

(** ** The account-change callbacks (lines 217-230 and 247-254) *)

(** The callback the base effect registers (lines 217-230). [decoded] is
    what [program.coder.accounts.decode("counter", accountInfo.data)] gives
    for the notified data. The call of line 226 is not awaited; it cannot
    reject, and nothing follows it in the callback. *)
Definition onBaseAccountChange (r : Render) (env : Responses)
    (decoded : Completion CounterAccount) : Async unit :=
  try_catch
    (d <- attempt decoded ;;
     setCounterAccount (Some (mkCounterAccount (count d) (authority d))) ;;
     setError None ;;
     checkDelegationStatus r env)
    (fun _ => ret tt).

(** The callback the rollup effect registers (lines 247-254). *)
Definition onErAccountChange (decoded : Completion CounterAccount) : Async unit :=
  try_catch
    (d <- attempt decoded ;;
     setErCounterValue (Some (count d)))
    (fun _ => ret tt).

(** ** Unmounting and replaying renders *)

(** React runs the clean-up of both effects when the component goes away
    (lines 234-236 and 258-260): the two connections afterwards. *)
Definition unmount (e : Engine) : Connection * Connection :=
  (runCleanup (e_baseCleanup e) (e_connection e),
   runCleanup (e_erCleanup e) (e_erConnection e)).

(** A mount followed by the given renders, oldest first. *)
Definition replay (connection : Connection) (r : Render) (st : HookState)
    (renders : list (bool * Render * HookState)) : Engine :=
  fold_left (fun e step => rerender (fst (fst step)) (snd (fst step)) (snd step) e)
    renders (mount connection r st).

(** Ids already handed out by a connection lie below its next id. *)
Definition idsBelow (c : Connection) : bool :=
  forallb (fun l => Nat.ltb (l_id l) (nextId c)) (listeners c).

(** The precondition of the base subscription (line 208). *)
Definition baseSubscriptionWanted (r : Render) : bool :=
  isSome (program r) && isSome (counterPubkey r).

(** ** The counter component (components/Counter.tsx) *)

(** What a handler writes to the component's own state. *)
Inductive UiUpdate :=
| SetLastTxSignature (tx : string)
| SetSetValue (s : string).

(** [handleAction] (lines 57-65): the action's failure is logged, not
    rethrown. *)
Definition handleAction (action : Async string) : Async (list UiUpdate) :=
  try_catch
    (tx <- action ;;
     ret [SetLastTxSignature tx])
    (fun _ => ret []).

(** [handleIncrement] (lines 68-74); the status is the one of the render
    the handler belongs to. *)
Definition handleIncrement (r : Render) (env : Responses) : Async (list UiUpdate) :=
  fun st =>
    if status_eqb (delegationStatus st) delegated
    then handleAction (incrementOnER r env) st
    else handleAction (increment r env) st.

(** [handleDecrement] (lines 77-83). *)
Definition handleDecrement (r : Render) (env : Responses) : Async (list UiUpdate) :=
  fun st =>
    if status_eqb (delegationStatus st) delegated
    then handleAction (decrementOnER r env) st
    else handleAction (decrement r env) st.

(** [handleSet] (lines 86-97). [parsed] is [parseInt(setValue, 10)], with
    [None] for [NaN]. *)
Definition handleSet (parsed : option Z) (r : Render) (env : Responses)
    : Async (list UiUpdate) :=
  fun st =>
    match parsed with
    | None => ret [] st
    | Some value =>
        if (value <? 0)%Z then ret [] st
        else
          (ups <- (if status_eqb (delegationStatus st) delegated
                   then handleAction (setOnER value r env)
                   else handleAction (set value r env)) ;;
           ret (ups ++ [SetSetValue ""])) st
    end.

(** [displayValue] (lines 104-106); [None] is [undefined]. *)
Definition displayValue (st : HookState) : option Z :=
  if status_eqb (delegationStatus st) delegated && isSome (erCounterValue st)
  then erCounterValue st
  else match counterAccount st with
       | Some a => Some (count a)
       | None => None
       end.

(** [isValueZero] (line 108). *)
Definition isValueZero (st : HookState) : bool :=
  match displayValue st with
  | Some v => (v =? 0)%Z
  | None => false
  end.

(** ** More classifiers *)

(** Any call on the rollup connection or through the rollup program. *)
Definition touchesRollup (ev : Event) : bool :=
  match ev with
  | EvRpc p _ _ _ | EvFetchCounter p _ => ledger_eqb (ledgerOf p) RollupLedger
  | EvGetLatestBlockhash l | EvSendRawTransaction l _ _
  | EvConfirmTransaction l _ _ | EvGetAccountInfo l _
  | EvGetCommitmentSignature _ l => ledger_eqb l RollupLedger
  | _ => false
  end.

(** [s] contains [sub] somewhere. *)
Definition substring (sub s : string) : Prop :=
  exists pre post, s = (pre ++ sub ++ post)%string.

Definition withCommitmentSignature (env : Responses) (a : Completion string) : Responses :=
  mkResponses (on_rpc env) (on_transaction env) (on_er_getLatestBlockhash env)
    (on_wallet_signTransaction env) (on_session_signTransaction env)
    (on_er_sendRawTransaction env) (on_er_confirmTransaction env)
    (on_base_fetch env) (on_er_fetch env) (on_getAccountInfo env) a.

(** What the engine keeps true of its base effect on a connection it shares:
    the listeners that were there at mount ([foreign], with ids below
    [bound]) are all still there, followed by the hook's own listener when
    its clean-up holds one. *)
Definition base_consistent (foreign : list Listener) (bound : nat) (e : Engine) : Prop :=
  (bound <= nextId (e_connection e))%nat /\
  e_baseDeps e = baseDeps (e_render e) /\
  match e_baseCleanup e with
  | Some id =>
      (bound <= id)%nat /\
      exists pda, counterPubkey (e_render e) = Some pda /\
        listeners (e_connection e) = foreign ++ [mkListener id pda "confirmed"] /\
        baseSubscriptionWanted (e_render e) = true
  | None =>
      listeners (e_connection e) = foreign /\
      baseSubscriptionWanted (e_render e) = false
  end.

(** ** What an operation waits for *)

(** Whether the argument of an operation passes [new BN(value)]. *)
Definition converts (op : Operation) : bool :=
  match op with
  | OpSet v | OpSetOnER v => (Z.abs v <? 2 ^ 53)%Z
  | _ => true
  end.

(** Whether an operation gets as far as its [setIsLoading(true)]: its guard
    passes and, for [setOnER], the value converts (line 409 comes before
    [performErAction] is entered). *)
Definition starts (op : Operation) (r : Render) : bool :=
  ready op r && match op with
                | OpSetOnER _ => converts op
                | _ => true
                end.

(** The second argument the rollup actions give to [performErAction]. *)
Definition actionName (op : Operation) : string :=
  match op with
  | OpIncrementOnER => "increment"
  | OpDecrementOnER => "decrement"
  | _ => "set"
  end.


Definition void {A} (c : Completion A) : Completion unit :=
  match c with
  | Returned _ => Returned tt
  | Threw e => Threw e
  end.

(** The first exception in a sequence of steps. *)
Fixpoint firstThrown (steps : list (Completion unit)) : option JsThrown :=
  match steps with
  | [] => None
  | Threw e :: _ => Some e
  | Returned _ :: steps' => firstThrown steps'
  end.

(** How [tx.serialize()] ends in a rollup action (line 369), for the
    transaction that action has built, anchored and had signed. *)
Definition rollupSerialize (op : Operation) (r : Render) (env : Responses)
    : Completion unit :=
  match walletReady (wallet r), counterPubkey r, on_er_getLatestBlockhash env with
  | Some pk, Some pda, Returned blockhash =>
      void (serialize r
              (rollupSigned r (mkMethodBuilder (baseProgram pk) (methodOf op))
                 pda blockhash))
  | _, _, _ => Returned tt
  end.

(** The steps inside the [try] of each operation that can throw, in the
    order of the source, up to the last one its return depends on. *)
Definition awaited (op : Operation) (r : Render) (env : Responses)
    : list (Completion unit) :=
  match op with
  | OpInitialize | OpIncrement | OpDecrement | OpDelegate => [void (on_rpc env)]
  | OpSet v => [void (newBN v); void (on_rpc env)]
  | OpIncrementOnER | OpDecrementOnER | OpSetOnER _ =>
      [on_transaction env;
       void (on_er_getLatestBlockhash env);
       on_rollup_signTransaction r env;
       rollupSerialize op r env;
       void (on_er_sendRawTransaction env);
       on_er_confirmTransaction env]
  | OpCommit | OpUndelegate =>
      [on_transaction env;
       void (on_er_getLatestBlockhash env);
       on_wallet_signTransaction env;
       void (on_er_sendRawTransaction env);
       on_er_confirmTransaction env]
  end.

(** The accounts object of a base-layer operation in a render. *)
Definition baseAccountsIn (op : Operation) (r : Render) (pk : PublicKey) : Accounts :=
  match op with
  | OpInitialize => [("authority", Some pk)]
  | _ => [("counter", counterPubkey r); ("signer", Some pk); ("sessionToken", None)]
  end.

(** What a base-layer operation does after its [rpc] returned, in a render
    whose address may be unknown. *)
Definition afterRpcIn (op : Operation) (r : Render) (pk : PublicKey)
    (env : Responses) : list Event :=
  match op, counterPubkey r with
  | OpInitialize, Some pda =>
      EvFetchCounter (baseProgram pk) pda :: refreshWrites (on_base_fetch env)
  | OpInitialize, None => [EvSet (SetCounterAccount None)]
  | _, _ => []
  end.

(** ** Proof support *)

Ltac unfold_async :=
  unfold completion, final, trace, setCounterAccount, setIsLoading,
    setIsDelegating, setError, setDelegationStatus, setErCounterValue,
    set_state, bind, try_catch, try_finally, io, ret, throw in *.

Ltac unfold_memo := unfold program, erProgram, erProvider in *.

Ltac unfold_ops :=
  unfold runOp, initialize, increment, decrement, set, incrementOnER,
    decrementOnER, setOnER, performErAction, signForRollup, delegate, commit,
    undelegate, sendToRollup, fetchCounterAccount, checkDelegationStatus in *.

(** Splits on the next answer, guard or thrown value the run inspects. *)
Ltac next_case :=
  match goal with
  | |- context [match ?x with _ => _ end] =>
      lazymatch type of x with
      | Completion _ => destruct x as [?|?] eqn:?
      | JsThrown => destruct x as [?|] eqn:?
      | bool => destruct x eqn:?
      | option _ => destruct x as [?|] eqn:?
      end
  end.

Ltac all_cases := repeat (simpl in *; next_case); simpl in *.

(** The same, computing the local steps ([new BN], [serialize]) as it goes. *)
Ltac settle :=
  simpl in *;
  unfold attempt, newBN, serialize, hasSignature, requiredSigners, keyOf in *;
  simpl in *;
  repeat match goal with
         | H : w_publicKey (wallet _) = Some _ |- _ => rewrite H
         end;
  simpl in *; rewrite ?String.eqb_refl; simpl in *.

Ltac all_steps := repeat (settle; next_case); settle.

Lemma walletReady_publicKey (w : Wallet) (pk : PublicKey) :
  walletReady w = Some pk -> w_publicKey w = Some pk.
Proof.
  unfold walletReady. destruct (w_publicKey w); try discriminate.
  destruct (w_signTransaction w && w_signAllTransactions w); congruence.
Qed.

Lemma erProgram_rollup (r : Render) (erp : Program) :
  erProgram r = Some erp -> ledgerOf erp = RollupLedger.
Proof.
  unfold erProgram, erProvider.
  destruct (walletReady (wallet r)); intros H; inversion H; reflexivity.
Qed.

Lemma program_base (r : Render) (p : Program) :
  program r = Some p -> ledgerOf p = BaseLedger.
Proof.
  unfold program.
  destruct (walletReady (wallet r)); intros H; inversion H; reflexivity.
Qed.

(** Past its guard an operation that needs [erProvider] also has [erProgram]:
    both are memoised from the same wallet test. *)
Lemma erProvider_erProgram (r : Render) (p : Provider) :
  erProvider r = Some p -> erProgram r = Some (mkProgram IDL_address p).
Proof. unfold erProgram. intros ->. reflexivity. Qed.

(** ** The delegation-status check *)

(** The check never throws, whatever the two ledgers answer. *)
Lemma checkDelegationStatus_returns (r : Render) (env : Responses) (st : HookState) :
  completion (checkDelegationStatus r env st) = Returned tt.
Proof.
  unfold checkDelegationStatus.
  destruct (counterPubkey r) as [pda|]; [|reflexivity].
  unfold_async; simpl.
  destruct (on_getAccountInfo env) as [[info|]|e]; simpl; try reflexivity.
  destruct (String.eqb (ai_owner info) DELEGATION_PROGRAM_ID); simpl; try reflexivity.
  destruct (erProgram r); simpl; try reflexivity.
  destruct (on_er_fetch env); reflexivity.
Qed.

(** The check never writes the error slot, the busy flags or the account. *)
Lemma checkDelegationStatus_frame (r : Render) (env : Responses) (st : HookState) :
  let st' := final (checkDelegationStatus r env st) in
  error st' = error st /\ isLoading st' = isLoading st /\
  isDelegating st' = isDelegating st /\ counterAccount st' = counterAccount st.
Proof.
  unfold checkDelegationStatus.
  destruct (counterPubkey r) as [pda|]; [|simpl; auto].
  unfold_async; simpl.
  destruct (on_getAccountInfo env) as [[info|]|e]; simpl; auto.
  destruct (String.eqb (ai_owner info) DELEGATION_PROGRAM_ID); simpl; auto.
  destruct (erProgram r); simpl; auto.
  destruct (on_er_fetch env); simpl; auto.
Qed.

(** C2 (as amended). For a known address and a base-layer read that
    answers: an absent account gives [undelegated] and clears the cached
    rollup value; an account owned by the delegation program gives
    [delegated], and when the rollup program client exists one rollup read
    is attempted, whose failure leaves status and cached value as they are
    (without a rollup client no read is attempted); an account with any
    other owner gives [undelegated] and clears the cached rollup value. *)
Theorem checkDelegationStatus_cases
    (r : Render) (env : Responses) (st : HookState) (pda : PublicKey)
    (result : option AccountInfo) :
  counterPubkey r = Some pda ->
  on_getAccountInfo env = Returned result ->
  let out := checkDelegationStatus r env st in
  (result = None ->
     delegationStatus (final out) = undelegated /\
     erCounterValue (final out) = None) /\
  (forall info, result = Some info -> ai_owner info = DELEGATION_PROGRAM_ID ->
     delegationStatus (final out) = delegated /\
     (forall erp, erProgram r = Some erp ->
        In (EvFetchCounter erp pda) (trace out) /\
        (forall account, on_er_fetch env = Returned account ->
           erCounterValue (final out) = Some (count account)) /\
        (forall e, on_er_fetch env = Threw e ->
           erCounterValue (final out) = erCounterValue st)) /\
     (erProgram r = None ->
        existsb isRollupRead (trace out) = false /\
        erCounterValue (final out) = erCounterValue st)) /\
  (forall info, result = Some info -> ai_owner info <> DELEGATION_PROGRAM_ID ->
     delegationStatus (final out) = undelegated /\
     erCounterValue (final out) = None).
Proof.
  intros Hpda Hinfo out. subst out. unfold checkDelegationStatus.
  rewrite Hpda. unfold_async. rewrite Hinfo. simpl.
  split; [|split].
  - intros ->. simpl. auto.
  - intros info -> Howner.
    apply String.eqb_eq in Howner. rewrite Howner. simpl.
    destruct (erProgram r) as [erp|]; simpl.
    + destruct (on_er_fetch env) as [account|e] eqn:Hfetch; simpl;
        (split; [reflexivity|]); (split; [|intros; discriminate]);
        intros erp' Herp; inversion Herp; subst erp';
        (split; [right; right; right; left; reflexivity|]);
        split; intros x Hx; inversion Hx; reflexivity.
    + split; [reflexivity|]. split; [intros; discriminate|]. auto.
  - intros info -> Howner.
    apply String.eqb_neq in Howner. rewrite Howner. simpl. auto.
Qed.

Lemma checkDelegationStatus_cases_witness :
  let out := checkDelegationStatus (connected noSession)
               (withErFetch (allSucceed DELEGATION_PROGRAM_ID) (Threw (JsError "timeout")))
               delegatedState in
  delegationStatus (final out) = delegated /\
  In (EvFetchCounter (mkProgram IDL_address (mkProvider RollupLedger "alice" "confirmed")) "pda")
     (trace out) /\
  erCounterValue (final out) = Some 9%Z.
Proof.
  pose proof (checkDelegationStatus_cases (connected noSession)
    (withErFetch (allSucceed DELEGATION_PROGRAM_ID) (Threw (JsError "timeout")))
    delegatedState "pda" (Some (mkAccountInfo DELEGATION_PROGRAM_ID 1))
    eq_refl eq_refl) as H.
  destruct H as [_ [H _]].
  destruct (H _ eq_refl eq_refl) as [Hst [Hread _]].
  destruct (Hread _ eq_refl) as [Hin [_ Hfail]].
  split; [exact Hst|]. split; [exact Hin|].
  exact (Hfail (JsError "timeout") eq_refl).
Defined.

(** C2, counterexample. The address is known and the account is owned by the
    delegation program, but the wallet cannot sign, so there is no rollup
    program client: the status becomes [delegated] and no rollup read is
    attempted. *)
Lemma checkDelegationStatus_no_client_no_read :
  let r := mkRender readOnlyWallet (Some "pda") noSession in
  let out := checkDelegationStatus r (allSucceed DELEGATION_PROGRAM_ID) initialHookState in
  counterPubkey r = Some "pda" /\
  on_getAccountInfo (allSucceed DELEGATION_PROGRAM_ID)
    = Returned (Some (mkAccountInfo DELEGATION_PROGRAM_ID 1)) /\
  delegationStatus (final out) = delegated /\
  trace out = [EvSet (SetDelegationStatus checking);
               EvGetAccountInfo BaseLedger "pda";
               EvSet (SetDelegationStatus delegated)] /\
  ~ exists ev, In ev (trace out) /\ isRollupRead ev = true.
Proof.
  simpl. repeat split.
  intros [ev [Hin Hread]].
  repeat (destruct Hin as [<-|Hin]; [discriminate Hread|]).
  exact Hin.
Qed.

(** C3 (as amended). Whatever the ledgers answer, the status check returns
    normally and never writes the error slot. When the call that fails is
    the read of the base-layer account, the status ends as [undelegated] and
    the cached rollup value is cleared; when it is the best-effort read of
    the rollup counter, the status stays [delegated] and the cached rollup
    value is left as it was. *)
Theorem checkDelegationStatus_transport_failure
    (r : Render) (env : Responses) (st : HookState) :
  let out := checkDelegationStatus r env st in
  completion out = Returned tt /\
  error (final out) = error st /\
  existsb (fun ev => match ev with EvSet (SetError _) => true | _ => false end)
    (trace out) = false /\
  (forall pda e,
     counterPubkey r = Some pda -> on_getAccountInfo env = Threw e ->
     delegationStatus (final out) = undelegated /\
     erCounterValue (final out) = None /\
     existsb (fun ev => match ev with EvSet (SetError _) => true | _ => false end)
       (trace out) = false) /\
  (forall pda info erp e,
     counterPubkey r = Some pda ->
     on_getAccountInfo env = Returned (Some info) ->
     ai_owner info = DELEGATION_PROGRAM_ID ->
     erProgram r = Some erp ->
     on_er_fetch env = Threw e ->
     delegationStatus (final out) = delegated /\
     erCounterValue (final out) = erCounterValue st).
Proof.
  intros out. subst out.
  split; [apply checkDelegationStatus_returns|].
  split; [apply checkDelegationStatus_frame|].
  split; [|split].
  - unfold checkDelegationStatus. unfold_async. all_cases; reflexivity.
  - intros pda e Hpda Hfail. unfold checkDelegationStatus.
    rewrite Hpda. unfold_async. rewrite Hfail. simpl. auto.
  - intros pda info erp e Hpda Hinfo Howner Herp Hfail.
    unfold checkDelegationStatus.
    rewrite Hpda, Herp. unfold_async. rewrite Hinfo. simpl.
    apply String.eqb_eq in Howner. rewrite Howner. simpl.
    rewrite Hfail. simpl. auto.
Qed.

Lemma checkDelegationStatus_transport_failure_witness :
  let out := checkDelegationStatus (connected noSession)
               (withAccountInfo (allSucceed IDL_address) (Threw (JsError "fetch failed")))
               delegatedState in
  let kept := checkDelegationStatus (connected noSession)
                (withErFetch (allSucceed DELEGATION_PROGRAM_ID)
                   (Threw (JsError "failed to fetch")))
                delegatedState in
  (completion out = Returned tt /\
   error (final out) = None /\
   delegationStatus (final out) = undelegated /\
   erCounterValue (final out) = None) /\
  (delegationStatus (final kept) = delegated /\
   erCounterValue (final kept) = Some 9%Z).
Proof.
  split.
  - pose proof (checkDelegationStatus_transport_failure (connected noSession)
      (withAccountInfo (allSucceed IDL_address) (Threw (JsError "fetch failed")))
      delegatedState) as H.
    destruct H as (Hret & Herr & _ & H & _).
    destruct (H "pda" (JsError "fetch failed") eq_refl eq_refl) as [Hs [Hv _]].
    repeat split; assumption.
  - pose proof (checkDelegationStatus_transport_failure (connected noSession)
      (withErFetch (allSucceed DELEGATION_PROGRAM_ID)
         (Threw (JsError "failed to fetch")))
      delegatedState) as H.
    destruct H as (_ & _ & _ & _ & H).
    exact (H "pda" (mkAccountInfo DELEGATION_PROGRAM_ID 1) (rollupProgram "alice")
             (JsError "failed to fetch") eq_refl eq_refl eq_refl eq_refl eq_refl).
Defined.

(** C3, counterexample. The base-layer read answers that the account is
    owned by the delegation program and the read of the rollup counter then
    fails with a transport error: the check ends with the status
    [delegated] and the cached rollup value kept, not with [undelegated]
    and a cleared value. *)
Lemma rollup_read_failure_stays_delegated :
  let env := withErFetch (allSucceed DELEGATION_PROGRAM_ID)
               (Threw (JsError "failed to fetch")) in
  let out := checkDelegationStatus (connected noSession) env delegatedState in
  on_er_fetch env = Threw (JsError "failed to fetch") /\
  In (EvFetchCounter (rollupProgram "alice") "pda") (trace out) /\
  completion out = Returned tt /\
  delegationStatus (final out) = delegated /\
  erCounterValue (final out) = Some 9%Z.
Proof. simpl. repeat split. right. right. right. left. reflexivity. Qed.

Lemma In_firstn {A} (n : nat) (l : list A) (x : A) :
  In x (firstn n l) -> In x l.
Proof.
  revert l; induction n as [|n IH]; intros [|y l]; simpl; try tauto.
  intros [->|H]; auto.
Qed.

Lemma In_external (ev : Event) (t : list Event) :
  In ev t -> isExternal ev = true -> In ev (filter isExternal t).
Proof. intros Hin Hext. apply filter_In. auto. Qed.

Lemma serialize_same (r : Render) (tx raw : Transaction) :
  serialize r tx = Returned raw -> raw = tx.
Proof.
  unfold serialize. destruct (tx_feePayer tx); [|discriminate].
  destruct (forallb (hasSignature r tx) (requiredSigners tx)); congruence.
Qed.

(** A transaction whose fee payer and only signer account are the wallet's
    key, signed by the wallet, serializes: this is the transaction of
    [commit] and of [undelegate]. *)
Lemma serialize_payer (r : Render) (m : Method) (pk : PublicKey) (bh : option string) :
  w_publicKey (wallet r) = Some pk ->
  signerAccounts m = ["payer"] ->
  serialize r (mkTransaction m [("payer", Some pk)] (Some pk) bh [PrimaryWallet])
  = Returned (mkTransaction m [("payer", Some pk)] (Some pk) bh [PrimaryWallet]).
Proof.
  intros Hpk Hm. unfold serialize, requiredSigners, hasSignature, keyOf. simpl.
  rewrite Hm, Hpk. simpl. rewrite String.eqb_refl. reflexivity.
Qed.

Section RollupRoutine.

(** One call [performErAction(methodBuilder, actionName)] in a given render
    and world. *)
Variables (mb : MethodBuilder) (name : string) (r : Render) (env : Responses).



(** Every run of the rollup routine, finished or not, in one of its shapes:
    the external calls are a prefix of [rollupCalls]; the signature is
    asked for once the transaction is built and anchored, and the
    transaction is sent once it is signed and serialized. *)
Lemma performErAction_calls (st : HookState) :
  let out := performErAction mb name r env st in
  filter isExternal (trace out) = [] \/
  exists pk pda blockhash txHash n,
    walletReady (wallet r) = Some pk /\
    counterPubkey r = Some pda /\
    filter isExternal (trace out)
      = firstn n (rollupCalls r mb pk pda blockhash txHash) /\
    (2 < n -> on_transaction env = Returned tt /\
              on_er_getLatestBlockhash env = Returned blockhash)%nat.
Proof.
  intros out. subst out.
  unfold performErAction, signForRollup, rollupCalls, rollupUnsigned,
    rollupSigner, rollupFeePayer, erDraft, withFeePayer, attempt.
  unfold_memo.
  destruct (walletReady (wallet r)) as [pk|] eqn:Hw; [|left; reflexivity].
  rewrite (walletReady_publicKey _ _ Hw).
  destruct (counterPubkey r) as [pda|]; [|left; reflexivity].
  right. exists pk, pda.
  unfold_async. simpl.
  destruct (on_transaction env) as [[]|]; simpl;
    [|exists "", "", 1%nat; repeat split; lia].
  destruct (on_er_getLatestBlockhash env) as [bh|]; simpl;
    [|exists "", "", 2%nat; repeat split; lia].
  exists bh.
  destruct (sessionSigns r); simpl.
  - destruct (on_session_signTransaction env) as [[]|]; simpl;
      [|exists "", 3%nat; repeat split; reflexivity].
    destruct (serialize r _) as [raw|] eqn:Hser; simpl;
      [|exists "", 3%nat; repeat split; reflexivity].
    pose proof (serialize_same _ _ _ Hser) as ->.
    destruct (on_er_sendRawTransaction env) as [h|]; simpl;
      [|exists "", 4%nat; repeat split; reflexivity].
    exists h.
    destruct (on_er_confirmTransaction env) as [[]|]; simpl;
      [|exists 5%nat; repeat split; reflexivity].
    destruct (on_er_fetch env); simpl; exists 6%nat; repeat split; reflexivity.
  - destruct (on_wallet_signTransaction env) as [[]|]; simpl;
      [|exists "", 3%nat; repeat split; reflexivity].
    destruct (serialize r _) as [raw|] eqn:Hser; simpl;
      [|exists "", 3%nat; repeat split; reflexivity].
    pose proof (serialize_same _ _ _ Hser) as ->.
    destruct (on_er_sendRawTransaction env) as [h|]; simpl;
      [|exists "", 4%nat; repeat split; reflexivity].
    exists h.
    destruct (on_er_confirmTransaction env) as [[]|]; simpl;
      [|exists 5%nat; repeat split; reflexivity].
    destruct (on_er_fetch env); simpl; exists 6%nat; repeat split; reflexivity.
Qed.




End RollupRoutine.




(** ** The three rollup actions *)









(** C5, the code at the failing input. The status is [undelegated], the
    wallet is connected and the address known: [incrementOnER] does not
    fail, it signs a transaction and sends it to the rollup. *)
Lemma incrementOnER_submits_when_undelegated :
  let out := incrementOnER (connected noSession) (allSucceed IDL_address) staleState in
  delegationStatus staleState = undelegated /\
  completion out = Returned "erSig" /\
  existsb isSubmission (trace out) = true /\
  delegationStatus (final out) = undelegated.
Proof. repeat split. Qed.

(** ** The discipline shared by the mutating operations *)

Lemma ready_guard (op : Operation) (r : Render) :
  ready op r = true ->
  exists pk, walletReady (wallet r) = Some pk /\ w_publicKey (wallet r) = Some pk /\
    (counterPubkey r = None -> op = OpInitialize \/ op = OpDelegate).
Proof.
  unfold ready. unfold_memo.
  destruct (walletReady (wallet r)) as [pk|] eqn:Hw.
  - intros H. exists pk. split; [reflexivity|].
    split; [apply walletReady_publicKey; exact Hw|].
    intros Hpda. rewrite Hpda in H.
    destruct op; auto; simpl in H;
      rewrite ?andb_false_r in H; discriminate.
  - destruct op; discriminate.
Qed.

(** An operation that does not get to its [setIsLoading(true)] throws at
    once: no setter is called, no call is made. *)
Lemma not_started_throws (op : Operation) (r : Render) (env : Responses) (st : HookState) :
  starts op r = false ->
  exists m, runOp op r env st = (Threw (JsError m), st, []).
Proof.
  destruct op; unfold starts, ready, converts; unfold_ops; unfold_memo;
    unfold newBN, attempt;
    (destruct (walletReady (wallet r)) as [pk|] eqn:Hw;
     [rewrite (walletReady_publicKey _ _ Hw);
      destruct (counterPubkey r); cbn [isSome andb]; try discriminate
     |cbn [isSome andb]]);
    try (intros _; eexists; reflexivity);
    unfold bind; destruct (Z.abs value <? 2 ^ 53)%Z; try discriminate;
    intros _; eexists; reflexivity.
Qed.

Lemma started_discipline (op : Operation) (r : Render) (env : Responses) (st : HookState) :
  starts op r = true ->
  let out := runOp op r env st in
  (exists rest, trace out = entryWrites op ++ rest) /\
  callsWhileBusy false (trace out) = true /\
  isLoading (final out) = false /\
  (forall e, firstThrown (awaited op r env) = Some e ->
     completion out = Threw e /\
     error (final out) = Some (errorMessage e (fallbackMessage op))) /\
  (firstThrown (awaited op r env) = None ->
     (exists h, completion out = Returned h) /\
     error (final out) = if refreshes op then refreshError r env else None).
Proof.
  intros Hstarts out. subst out.
  unfold starts in Hstarts. apply andb_true_iff in Hstarts.
  destruct Hstarts as [Hready Hconv].
  destruct (ready_guard op r Hready) as (pk & Hw & Hpk & Hpda).
  unfold refreshError, unexpectedFetchError, awaited, rollupSerialize,
    on_rollup_signTransaction, rollupSigned, rollupUnsigned, rollupSigner,
    rollupFeePayer, baseProgram.
  destruct (counterPubkey r) as [pda|] eqn:Hc.
  - clear Hpda Hready.
    destruct op; unfold converts in Hconv;
      unfold_ops; unfold_memo; unfold erDraft, withFeePayer, void;
      rewrite ?Hw, ?Hpk, ?Hc;
      unfold newBN;
      try match type of Hconv with (_ <? _)%Z = true => rewrite Hconv end;
      unfold_async; all_steps;
      (split; [eexists; reflexivity|]); (split; [reflexivity|]);
      (split; [reflexivity|]);
      (split; [let e' := fresh "e" in let H := fresh "H" in
               intros e' H;
               first [discriminate H | inversion H; subst; split; reflexivity]
              |let H := fresh "H" in
               intros H;
               first [discriminate H | split; [eexists; reflexivity | reflexivity]]]).
  - destruct (Hpda eq_refl) as [-> | ->]; clear Hpda Hready;
      unfold_ops; unfold_memo; unfold void; rewrite ?Hw, ?Hpk, ?Hc;
      unfold_async; all_steps;
      (split; [eexists; reflexivity|]); (split; [reflexivity|]);
      (split; [reflexivity|]);
      (split; [let e' := fresh "e" in let H := fresh "H" in
               intros e' H;
               first [discriminate H | inversion H; subst; split; reflexivity]
              |let H := fresh "H" in
               intros H;
               first [discriminate H | split; [eexists; reflexivity | reflexivity]]]).
Qed.

(** C9 (as amended). An operation that does not get to its
    [setIsLoading(true)] (a prerequisite is missing, or the value of
    [setOnER] does not convert) throws at once and touches neither the busy
    flag nor the error slot. Every other run of a mutating operation begins
    by raising the busy flag and clearing the error slot, makes every
    external call while the flag is up, and ends with the flag down whether
    it returns or throws. If one of its steps throws, the operation throws
    that same exception to its caller and the error slot holds its message
    (or the operation's fallback text); if none does, it returns, and the
    error slot is clear, except that after [initialize], [commit] and
    [undelegate] it holds what their closing refresh of the account left
    there. *)
Theorem operation_discipline
    (op : Operation) (r : Render) (env : Responses) (st : HookState) :
  let out := runOp op r env st in
  (starts op r = false ->
     exists m, completion out = Threw (JsError m) /\
               final out = st /\ trace out = []) /\
  (starts op r = true ->
     (exists rest, trace out = entryWrites op ++ rest) /\
     callsWhileBusy false (trace out) = true /\
     isLoading (final out) = false /\
     (forall e, firstThrown (awaited op r env) = Some e ->
        completion out = Threw e /\
        error (final out) = Some (errorMessage e (fallbackMessage op))) /\
     (firstThrown (awaited op r env) = None ->
        (exists h, completion out = Returned h) /\
        error (final out) = if refreshes op then refreshError r env else None) /\
     (forall e, completion out = Threw e ->
        firstThrown (awaited op r env) = Some e /\
        error (final out) = Some (errorMessage e (fallbackMessage op))) /\
     (forall h, completion out = Returned h ->
        error (final out) = if refreshes op then refreshError r env else None)).
Proof.
  intros out. subst out. split.
  - intros Hnot. destruct (not_started_throws op r env st Hnot) as [m ->].
    exists m. auto.
  - intros Hstarts.
    destruct (started_discipline op r env st Hstarts)
      as (Hentry & Hbusy & Hdown & Hthrows & Hreturns).
    repeat (split; [assumption|]).
    destruct (firstThrown (awaited op r env)) as [e0|].
    + destruct (Hthrows e0 eq_refl) as [Hc He]. split.
      * intros e Hthrew. rewrite Hc in Hthrew. inversion Hthrew; subst. auto.
      * intros h Hret. rewrite Hc in Hret. discriminate Hret.
    + destruct (Hreturns eq_refl) as [[h0 Hc] He]. split.
      * intros e Hthrew. rewrite Hc in Hthrew. discriminate Hthrew.
      * intros h _. exact He.
Qed.

Lemma operation_discipline_witness :
  let out := runOp OpDecrement (connected noSession)
               (withRpc (allSucceed IDL_address) (Threw (JsError "CounterUnderflow")))
               staleState in
  completion out = Threw (JsError "CounterUnderflow") /\
  isLoading (final out) = false /\
  error (final out) = Some "CounterUnderflow".
Proof.
  destruct (operation_discipline OpDecrement (connected noSession)
              (withRpc (allSucceed IDL_address) (Threw (JsError "CounterUnderflow")))
              staleState) as [_ H].
  destruct (H eq_refl) as (_ & _ & Hbusy & Hfail & _).
  destruct (Hfail (JsError "CounterUnderflow") eq_refl) as [Hc He].
  split; [exact Hc|]. split; [exact Hbusy | exact He].
Defined.

(** C9, counterexample. With no wallet connected [increment] fails, yet the
    error slot keeps the old text: it is neither cleared nor given the
    message of this failure. And [initialize] can return its signature with
    the error slot set, by the refresh that follows the transaction. *)
Lemma stale_error_and_refresh_error :
  let refused := increment disconnected (allSucceed IDL_address) staleState in
  let done := initialize (connected noSession)
                (withBaseFetch (allSucceed IDL_address)
                   (Threw (JsError "Invalid account discriminator")))
                initialHookState in
  (completion refused = Threw (JsError "Counter not initialized") /\
   error (final refused) = Some "old error" /\
   trace refused = []) /\
  (completion done = Returned "sig" /\
   error (final done) = Some "Invalid account discriminator").
Proof. repeat split. Qed.

(** ** The base-layer operations *)

(** C8 (as amended). A base-layer operation that passes its guard sends
    exactly one transaction, through the base-layer program whose provider
    signs with the wallet's own key and confirms at ["confirmed"]; only
    [set] with a value of magnitude 2^53 or more sends none, because the
    conversion of the value throws first. When the transaction is
    confirmed, [initialize] fetches the account from the base layer if the
    address is known, and only clears the account if it is not, while
    [increment], [decrement] and [set] return the signature without
    fetching; when it is refused, nothing follows it. *)
Theorem base_rpc_then_refresh
    (op : Operation) (r : Render) (env : Responses) (st : HookState)
    (pk : PublicKey) :
  isBaseOp op = true ->
  walletReady (wallet r) = Some pk ->
  ready op r = true ->
  let out := runOp op r env st in
  let sent := EvRpc (mkProgram IDL_address (mkProvider BaseLedger pk "confirmed"))
                (methodOf op) (baseAccountsIn op r pk) false in
  (converts op = true ->
     (forall signature, on_rpc env = Returned signature ->
        completion out = Returned signature /\
        trace out
          = entryWrites op ++ [sent] ++ afterRpcIn op r pk env
            ++ [EvSet (SetIsLoading false)]) /\
     (forall e, on_rpc env = Threw e ->
        completion out = Threw e /\
        filter isExternal (trace out) = [sent]) /\
     filter isSubmission (trace out) = [sent]) /\
  (converts op = false ->
     completion out = Threw (JsError "Assertion failed") /\
     filter isExternal (trace out) = []) /\
  (existsb isBaseFetch (trace out) = true ->
     op = OpInitialize /\ counterPubkey r <> None /\
     exists signature, on_rpc env = Returned signature).
Proof.
  intros Hbase Hw Hready out sent. subst out sent.
  destruct (ready_guard op r Hready) as (pk' & Hw' & Hpk & Hpda).
  rewrite Hw in Hw'. inversion Hw'; subst pk'. clear Hw'.
  unfold afterRpcIn, refreshWrites, baseAccountsIn, baseProgram, unexpectedFetchError.
  destruct (counterPubkey r) as [pda|] eqn:Hc.
  - clear Hpda Hready.
    destruct op; try discriminate Hbase; clear Hbase; unfold converts;
      unfold_ops; unfold_memo; unfold newBN, attempt;
      rewrite Hw, Hpk, Hc; unfold_async;
      try destruct (Z.abs value <? 2 ^ 53)%Z;
      all_cases;
      repeat split; intros; try discriminate; try congruence; try reflexivity;
      try (eexists; reflexivity).
  - destruct (Hpda eq_refl) as [-> | ->]; try discriminate Hbase.
    clear Hpda Hready Hbase. unfold converts.
    unfold_ops; unfold_memo; rewrite Hw, Hpk, Hc; unfold_async;
      all_cases;
      repeat split; intros; try discriminate; try congruence; try reflexivity;
      try (eexists; reflexivity).
Qed.

Lemma base_rpc_then_refresh_witness :
  let out := runOp (OpSet 41) (connected liveSession) (allSucceed IDL_address)
               initialHookState in
  completion out = Returned "sig" /\
  filter isSubmission (trace out)
    = [EvRpc (baseProgram "alice") (MSet 41)
         [("counter", Some "pda"); ("signer", Some "alice"); ("sessionToken", None)]
         false] /\
  existsb isBaseFetch (trace out) = false.
Proof.
  destruct (base_rpc_then_refresh (OpSet 41) (connected liveSession)
              (allSucceed IDL_address) initialHookState "alice"
              eq_refl eq_refl eq_refl) as (Hconv & _ & Hfetch).
  destruct (Hconv eq_refl) as (Hret & _ & Hsent).
  split; [exact (proj1 (Hret "sig" eq_refl))|]. split; [exact Hsent|].
  destruct (existsb isBaseFetch _) eqn:Hb; [|reflexivity].
  destruct (Hfetch eq_refl) as [Hop _]. discriminate Hop.
Defined.

(** C8, counterexample. [increment] returns the signature of its
    transaction and its whole trace holds no fetch of the account. *)
Lemma increment_does_not_fetch :
  let out := increment (connected noSession) (allSucceed IDL_address) initialHookState in
  completion out = Returned "sig" /\
  trace out
    = [EvSet (SetIsLoading true); EvSet (SetError None);
       EvRpc (baseProgram "alice") MIncrement
         [("counter", Some "pda"); ("signer", Some "alice"); ("sessionToken", None)]
         false;
       EvSet (SetIsLoading false)] /\
  ~ exists p addr, In (EvFetchCounter p addr) (trace out).
Proof.
  simpl. repeat split.
  intros (p & addr & Hin).
  repeat (destruct Hin as [Hin|Hin]; [discriminate Hin|]).
  exact Hin.
Qed.

(** C10. [increment], [decrement] and [set], once past their guard (and,
    for [set], the conversion of the value), make exactly one external
    call: the [rpc] through the provider of the wallet's own key, whose
    accounts name that key as signer and pass a null session token; and
    this is so whatever session wallet is present, active or not. More
    generally no operation other than the three rollup actions involves the
    session in any of its events or depends on it. *)
Theorem base_operations_ignore_session
    (op : Operation) (r : Render) (env : Responses) (st : HookState)
    (s : SessionWallet) :
  let out := runOp op r env st in
  (isRollupAction op = false ->
     runOp op (withSession r s) env st = out /\
     existsb usesSession (trace out) = false) /\
  (op = OpIncrement \/ op = OpDecrement \/ (exists v, op = OpSet v) ->
     (forall pk pda,
        walletReady (wallet r) = Some pk -> counterPubkey r = Some pda ->
        converts op = true ->
        filter isExternal (trace (runOp op (withSession r s) env st))
          = [EvRpc (mkProgram IDL_address (mkProvider BaseLedger pk "confirmed"))
               (methodOf op)
               [("counter", Some pda); ("signer", Some pk); ("sessionToken", None)]
               false]) /\
     (forall p m a skip, In (EvRpc p m a skip) (trace out) ->
        exists pk, w_publicKey (wallet r) = Some pk /\
                   pv_wallet (pg_provider p) = pk /\
                   account "signer" a = Some (Some pk) /\
                   account "sessionToken" a = Some None)).
Proof.
  intros out. subst out. split.
  - intros Hop. split.
    + destruct op; try discriminate Hop; reflexivity.
    + destruct op; try discriminate Hop; clear Hop;
        unfold_ops; unfold_memo; unfold newBN; unfold_async; all_steps; reflexivity.
  - intros Hop. split.
    + intros pk pda Hw Hpda Hconv.
      destruct Hop as [-> | [-> | [v ->]]]; unfold converts in Hconv;
        unfold_ops; unfold_memo; unfold withSession, newBN, attempt;
        try rewrite Hconv; simpl;
        rewrite Hw, (walletReady_publicKey _ _ Hw), Hpda; unfold_async;
        all_cases; reflexivity.
    + intros p m a skip.
      destruct Hop as [-> | [-> | [v ->]]];
        unfold_ops; unfold_memo; unfold newBN, attempt;
        (destruct (walletReady (wallet r)) as [pk|] eqn:Hw; [|intros []]);
        rewrite (walletReady_publicKey _ _ Hw);
        (destruct (counterPubkey r) as [pda|]; [|intros []]);
        unfold_async; all_cases;
        intros Hin;
        repeat (destruct Hin as [Hin|Hin]; [try discriminate Hin|]);
        try contradiction;
        inversion Hin; subst; exists pk; repeat split.
Qed.

Lemma base_operations_ignore_session_witness :
  let out := runOp OpIncrement (connected liveSession) (allSucceed IDL_address)
               initialHookState in
  existsb usesSession (trace out) = false /\
  filter isExternal (trace out)
    = [EvRpc (baseProgram "alice") MIncrement
         [("counter", Some "pda"); ("signer", Some "alice"); ("sessionToken", None)]
         false] /\
  exists pk, w_publicKey (wallet (connected liveSession)) = Some pk /\
    account "signer" (baseAccounts "pda" "alice") = Some (Some pk) /\
    account "sessionToken" (baseAccounts "pda" "alice") = Some None.
Proof.
  destruct (base_operations_ignore_session OpIncrement (connected noSession)
              (allSucceed IDL_address) initialHookState liveSession) as [Hany Hbase].
  destruct (Hbase (or_introl eq_refl)) as [Hcall Hrpc].
  split; [exact (proj2 (Hany eq_refl))|].
  split; [exact (Hcall "alice" "pda" eq_refl eq_refl eq_refl)|].
  destruct (Hrpc (baseProgram "alice") MIncrement (baseAccounts "pda" "alice") false)
    as (pk & Hpk & _ & Hsigner & Htoken).
  - simpl. right. right. left. reflexivity.
  - exists pk. repeat split; assumption.
Defined.

(** ** Undelegation *)

(** No run of [undelegate] calls [checkDelegationStatus]. *)
Lemma undelegate_never_checks (r : Render) (env : Responses) (st : HookState) :
  existsb isStatusCheck (trace (undelegate r env st)) = false.
Proof.
  unfold_ops. unfold_memo. unfold_async. all_steps; reflexivity.
Qed.

(** C7 (as amended). When its transaction is built, anchored, signed, sent
    and confirmed, [undelegate] has done, in this order: the submission to
    the rollup, a wait of 2000 ms, the forcing of the status to
    [undelegated] and the clearing of the cached rollup value, and a refresh
    of the base-layer account; no check of the delegation status is started
    by it. *)
Theorem undelegate_steps
    (r : Render) (env : Responses) (st : HookState)
    (pk pda : PublicKey) (blockhash txHash : string) :
  walletReady (wallet r) = Some pk ->
  counterPubkey r = Some pda ->
  on_transaction env = Returned tt ->
  on_er_getLatestBlockhash env = Returned blockhash ->
  on_wallet_signTransaction env = Returned tt ->
  on_er_sendRawTransaction env = Returned txHash ->
  on_er_confirmTransaction env = Returned tt ->
  let out := undelegate r env st in
  completion out = Returned txHash /\
  trace out
    = entryWrites OpUndelegate
      ++ rollupSubmission MUndelegate pk blockhash txHash
      ++ [EvSetTimeout 2000;
          EvSet (SetDelegationStatus undelegated);
          EvSet (SetErCounterValue None);
          EvFetchCounter (baseProgram pk) pda]
      ++ refreshWrites (on_base_fetch env)
      ++ [EvSet (SetIsLoading false)] /\
  delegationStatus (final out) = undelegated /\
  erCounterValue (final out) = None /\
  existsb isStatusCheck (trace out) = false.
Proof.
  intros Hw Hpda Htx Hbh Hsign Hsend Hconf out. subst out.
  split; [|split; [|split; [|split; [|apply undelegate_never_checks]]]];
    unfold_ops; unfold_memo;
    unfold rollupSubmission, refreshWrites, baseProgram, unexpectedFetchError;
    (pose proof (walletReady_publicKey _ _ Hw) as Hpk);
    rewrite Hw, Hpk, Hpda;
    unfold_async; rewrite Htx, Hbh; simpl; rewrite Hsign; simpl;
    rewrite Hsend; simpl; rewrite Hconf; all_steps; reflexivity.
Qed.

Lemma undelegate_steps_witness :
  let out := undelegate (connected noSession) (allSucceed DELEGATION_PROGRAM_ID)
               delegatedState in
  completion out = Returned "erSig" /\
  delegationStatus (final out) = undelegated /\
  erCounterValue (final out) = None /\
  existsb isStatusCheck (trace out) = false.
Proof.
  destruct (undelegate_steps (connected noSession)
              (allSucceed DELEGATION_PROGRAM_ID) delegatedState
              "alice" "pda" "blockhash" "erSig"
              eq_refl eq_refl eq_refl eq_refl eq_refl eq_refl eq_refl)
    as (Hret & _ & Hstatus & Hvalue & Hcheck).
  repeat split; assumption.
Defined.

(** C7, counterexample. A successful [undelegate]: after the wait it writes
    the status and the cached value and fetches the account, and nothing in
    its trace belongs to a status check, whereas [delegate] in the same
    world does read the owner of the account. *)
Lemma undelegate_schedules_no_check :
  let out := undelegate (connected noSession) (allSucceed DELEGATION_PROGRAM_ID)
               delegatedState in
  completion out = Returned "erSig" /\
  skipn 7 (trace out)
    = [EvSetTimeout 2000;
       EvSet (SetDelegationStatus undelegated);
       EvSet (SetErCounterValue None);
       EvFetchCounter (baseProgram "alice") "pda";
       EvSet (SetCounterAccount (Some (mkCounterAccount 7 "alice")));
       EvSet (SetError None);
       EvSet (SetIsLoading false)] /\
  (forall ev, In ev (trace out) -> isStatusCheck ev = false) /\
  existsb isStatusCheck
    (trace (delegate (connected noSession) (allSucceed DELEGATION_PROGRAM_ID)
              delegatedState)) = true.
Proof.
  simpl. repeat split.
  intros ev Hin.
  repeat (destruct Hin as [<-|Hin]; [reflexivity|]).
  destruct Hin.
Qed.

(** ** The rollup subscription over the life of the hook *)

Lemma status_eqb_eq (a b : DelegationStatus) : status_eqb a b = true <-> a = b.
Proof. destruct a, b; simpl; split; intros H; try reflexivity; discriminate. Qed.

Lemma ledger_eqb_eq (a b : Ledger) : ledger_eqb a b = true <-> a = b.
Proof. destruct a, b; simpl; split; intros H; try reflexivity; discriminate. Qed.

Lemma option_eqb_eq {A} (eqb : A -> A -> bool) :
  (forall x y, eqb x y = true <-> x = y) ->
  forall a b : option A, option_eqb eqb a b = true <-> a = b.
Proof.
  intros Heqb [x|] [y|]; simpl; split; intros H;
    try discriminate; try reflexivity.
  - f_equal. apply Heqb. exact H.
  - apply Heqb. congruence.
Qed.

Lemma provider_eqb_eq (a b : Provider) : provider_eqb a b = true <-> a = b.
Proof.
  destruct a as [l w c], b as [l' w' c']. unfold provider_eqb. simpl.
  rewrite !andb_true_iff, ledger_eqb_eq, !String.eqb_eq.
  split; [intros [[-> ->] ->]; reflexivity | intros H; inversion H; auto].
Qed.

Lemma program_eqb_eq (a b : Program) : program_eqb a b = true <-> a = b.
Proof.
  destruct a as [x p], b as [x' p']. unfold program_eqb. simpl.
  rewrite andb_true_iff, String.eqb_eq, provider_eqb_eq.
  split; [intros [-> ->]; reflexivity | intros H; inversion H; auto].
Qed.

Lemma erDeps_eqb_eq (a b : ErDeps) : erDeps_eqb a b = true <-> a = b.
Proof.
  destruct a as [p k s], b as [p' k' s']. unfold erDeps_eqb. simpl.
  rewrite !andb_true_iff, (option_eqb_eq _ program_eqb_eq),
    (option_eqb_eq _ String.eqb_eq), status_eqb_eq.
  split; [intros [[-> ->] ->]; reflexivity | intros H; inversion H; auto].
Qed.

Lemma runCleanup_clears (e : Engine) :
  er_consistent e ->
  listeners (runCleanup (e_erCleanup e) (e_erConnection e)) = [].
Proof.
  intros [_ H]. destruct (e_erCleanup e) as [id|]; simpl.
  - destruct H as (pda & _ & -> & _). simpl. rewrite Nat.eqb_refl. reflexivity.
  - apply H.
Qed.

(** Running the effect on a connection without listeners. *)
Lemma erEffect_fresh (r : Render) (st : HookState) (c : Connection) :
  listeners c = [] ->
  match fst (erEffect (erDeps r st) c) with
  | Some id =>
      exists pda, counterPubkey r = Some pda /\
        listeners (snd (erEffect (erDeps r st) c)) = [mkListener id pda "confirmed"] /\
        erProgram r <> None /\ delegationStatus st = delegated
  | None =>
      listeners (snd (erEffect (erDeps r st) c)) = [] /\
      (erProgram r = None \/ counterPubkey r = None \/ delegationStatus st <> delegated)
  end.
Proof.
  intros Hc. unfold erEffect, erDeps. simpl.
  destruct (erProgram r) as [erp|]; [|simpl; auto].
  destruct (counterPubkey r) as [pda|]; [|simpl; auto].
  destruct (status_eqb (delegationStatus st) delegated) eqn:Hs; simpl.
  - rewrite Hc. exists pda. repeat split; try discriminate.
    apply status_eqb_eq. exact Hs.
  - split; [exact Hc|]. right. right. intros H.
    apply status_eqb_eq in H. congruence.
Qed.

Lemma wanted_iff (r : Render) (st : HookState) (e : Engine) :
  e_render e = r -> e_state e = st ->
  (erSubscriptionWanted e = true <->
   delegationStatus st = delegated /\ erProgram r <> None /\ counterPubkey r <> None).
Proof.
  intros <- <-. unfold erSubscriptionWanted.
  destruct (erProgram (e_render e)); destruct (counterPubkey (e_render e));
    rewrite ?status_eqb_eq; split; intros H;
    try discriminate; try tauto; try (repeat split; try discriminate; tauto).
Qed.

Lemma effect_consistent (r : Render) (st : HookState) (c c1 : Connection)
    (bd : BaseDeps) (bc : option nat) :
  listeners c = [] ->
  er_consistent
    (mkEngine r st c1 (snd (erEffect (erDeps r st) c)) bd bc (erDeps r st)
       (fst (erEffect (erDeps r st) c))).
Proof.
  intros Hc. pose proof (erEffect_fresh r st c Hc) as H.
  unfold er_consistent. simpl. split; [reflexivity|].
  destruct (fst (erEffect (erDeps r st) c)) as [id|].
  - destruct H as (pda & Hpda & Hl & Hp & Hs). exists pda.
    repeat split; auto.
    apply (wanted_iff r st); auto. repeat split; auto. congruence.
  - destruct H as [Hl Hno]. split; [exact Hl|].
    destruct (erSubscriptionWanted _) eqn:Hw; [|reflexivity].
    apply (wanted_iff r st) in Hw; auto. simpl in Hw.
    destruct Hw as (Hs & Hp & Hk). destruct Hno as [H|[H|H]]; contradiction.
Qed.

Lemma mount_consistent (connection : Connection) (r : Render) (st : HookState) :
  er_consistent (mount connection r st).
Proof.
  unfold mount.
  destruct (baseEffect (baseDeps r) connection) as [bc c1].
  destruct (erEffect (erDeps r st) newConnection) as [ec c2] eqn:He.
  pose proof (effect_consistent r st newConnection c1 (baseDeps r) bc eq_refl) as H.
  rewrite He in H. exact H.
Qed.

Lemma rerender_consistent (fresh : bool) (r : Render) (st : HookState) (e : Engine) :
  er_consistent e -> er_consistent (rerender fresh r st e).
Proof.
  intros Hinv. unfold rerender.
  destruct (if fresh || negb (baseDeps_eqb (e_baseDeps e) (baseDeps r))
            then baseEffect (baseDeps r) (runCleanup (e_baseCleanup e) (e_connection e))
            else (e_baseCleanup e, e_connection e)) as [bc c1].
  destruct (fresh || negb (erDeps_eqb (e_erDeps e) (erDeps r st))) eqn:Hrun.
  - destruct (erEffect (erDeps r st) (runCleanup (e_erCleanup e) (e_erConnection e)))
      as [ec c2] eqn:He.
    pose proof (effect_consistent r st _ c1 (baseDeps r) bc (runCleanup_clears e Hinv)) as H.
    rewrite He in H. exact H.
  - apply orb_false_iff in Hrun. destruct Hrun as [_ Heq].
    apply negb_false_iff, erDeps_eqb_eq in Heq.
    destruct Hinv as [Hdeps Hinv]. rewrite Hdeps in Heq.
    unfold er_consistent. simpl. split; [reflexivity|].
    assert (Hk : counterPubkey (e_render e) = counterPubkey r)
      by (injection Heq; auto).
    assert (Hw : forall e', e_render e' = r -> e_state e' = st ->
                 erSubscriptionWanted e' = erSubscriptionWanted e).
    { intros e' Hr Hs. unfold erSubscriptionWanted. rewrite Hr, Hs.
      unfold erDeps in Heq. injection Heq as Hp Hk' Hst.
      rewrite Hp, Hk', Hst. reflexivity. }
    destruct (e_erCleanup e) as [id|].
    + destruct Hinv as (pda & Hpda & Hl & Hwant). exists pda.
      repeat split; auto; [congruence|]. rewrite Hw; auto.
    + destruct Hinv as [Hl Hwant]. split; auto. rewrite Hw; auto.
Qed.

Lemma lifecycle_consistent (e : Engine) : lifecycle e -> er_consistent e.
Proof.
  induction 1 as [connection r st | fresh r st e _ IH].
  - apply mount_consistent.
  - apply rerender_consistent. exact IH.
Qed.

(** C1. In every state of the mounted hook a rollup account-change
    subscription is live exactly when the status is [delegated] and the
    rollup program and the address exist; there is never more than one, and
    it listens on the counter address; and a render in which the status is
    not [delegated], or the address is unknown, leaves the rollup connection
    without any listener. *)
Theorem rollup_subscription_invariant (e : Engine) :
  lifecycle e ->
  (erSubscribed e = true <->
   delegationStatus (e_state e) = delegated /\
   erProgram (e_render e) <> None /\
   counterPubkey (e_render e) <> None) /\
  (length (listeners (e_erConnection e)) <= 1)%nat /\
  (forall l, In l (listeners (e_erConnection e)) ->
     counterPubkey (e_render e) = Some (l_address l)) /\
  (forall fresh r st,
     delegationStatus st <> delegated \/ counterPubkey r = None ->
     listeners (e_erConnection (rerender fresh r st e)) = []).
Proof.
  assert (Hmain : forall e', er_consistent e' ->
            (erSubscribed e' = true <-> erSubscriptionWanted e' = true) /\
            (length (listeners (e_erConnection e')) <= 1)%nat /\
            (forall l, In l (listeners (e_erConnection e')) ->
               counterPubkey (e_render e') = Some (l_address l))).
  { intros e' [_ H]. unfold erSubscribed.
    destruct (e_erCleanup e') as [id|].
    - destruct H as (pda & Hpda & -> & ->). simpl.
      repeat split; auto.
      intros l [<-|[]]. exact Hpda.
    - destruct H as [-> ->]. simpl. repeat split; auto; intros; contradiction. }
  intros Hlife. pose proof (lifecycle_consistent e Hlife) as Hinv.
  destruct (Hmain e Hinv) as (Hiff & Hlen & Haddr).
  split; [|split; [exact Hlen|split; [exact Haddr|]]].
  - rewrite Hiff. apply wanted_iff; reflexivity.
  - intros fresh r st Hoff.
    pose proof (rerender_consistent fresh r st e Hinv) as Hinv'.
    destruct (Hmain _ Hinv') as (Hiff' & _ & _).
    assert (Hr : e_render (rerender fresh r st e) = r /\
                 e_state (rerender fresh r st e) = st).
    { unfold rerender.
      destruct (if fresh || negb (baseDeps_eqb _ _) then _ else _).
      destruct (if fresh || negb (erDeps_eqb _ _) then _ else _).
      split; reflexivity. }
    destruct Hr as [Hr Hs].
    rewrite (wanted_iff r st _ Hr Hs) in Hiff'.
    unfold erSubscribed in Hiff'.
    destruct (listeners (e_erConnection (rerender fresh r st e))); [reflexivity|].
    destruct (proj1 Hiff' eq_refl) as (Hd & _ & Hk).
    destruct Hoff; contradiction.
Qed.

Lemma rollup_subscription_invariant_witness :
  let e := rerender false (connected noSession) delegatedState
             (mount newConnection (connected noSession) initialHookState) in
  erSubscribed e = true /\
  listeners (e_erConnection (rerender false (connected noSession) staleState e)) = [].
Proof.
  intros e.
  assert (Hlife : lifecycle e) by (apply lc_rerender, lc_mount).
  destruct (rollup_subscription_invariant e Hlife) as (Hiff & _ & _ & Hdown).
  split.
  - apply Hiff. repeat split; discriminate.
  - apply Hdown. left. discriminate.
Defined.

(** ** Reading the base-layer account *)

Lemma prefix_app (sub post : string) : String.prefix sub (sub ++ post)%string = true.
Proof.
  induction sub as [|a sub IH]; simpl.
  - destruct post; reflexivity.
  - destruct (Ascii.ascii_dec a a) as [_|Hne]; [exact IH|contradiction].
Qed.

Lemma prefix_split (sub s : string) :
  String.prefix sub s = true -> exists post, s = (sub ++ post)%string.
Proof.
  revert s. induction sub as [|a sub IH]; intros s H.
  - exists s. reflexivity.
  - destruct s as [|b s]; simpl in H; [discriminate|].
    destruct (Ascii.ascii_dec a b) as [->|_]; [|discriminate].
    destruct (IH s H) as [post ->]. exists post. reflexivity.
Qed.

(** [includes] is the substring test of [String.prototype.includes]. *)
Lemma includes_substring (s sub : string) :
  includes s sub = true <-> substring sub s.
Proof.
  split.
  - induction s as [|a s IH].
    + destruct sub; simpl; [|discriminate].
      intros _. exists "", "". reflexivity.
    + change (includes (String a s) sub)
        with (if String.prefix sub (String a s) then true else includes s sub).
      destruct (String.prefix sub (String a s)) eqn:Hp.
      * intros _. destruct (prefix_split _ _ Hp) as [post Heq].
        exists "", post. exact Heq.
      * intros H. destruct (IH H) as (pre & post & ->).
        exists (String a pre), post. reflexivity.
  - intros (pre & post & ->). induction pre as [|a pre IH].
    + pose proof (prefix_app sub post) as Hp. simpl (EmptyString ++ _)%string.
      destruct (sub ++ post)%string;
        unfold includes; fold includes; rewrite Hp; reflexivity.
    + change (includes (String a pre ++ sub ++ post) sub)
        with (if String.prefix sub (String a (pre ++ sub ++ post)) then true
              else includes (pre ++ sub ++ post) sub).
      destruct (String.prefix sub (String a (pre ++ sub ++ post))); auto.
Qed.

(** X1. [fetchCounterAccount] never throws; it leaves the busy flags, the
    delegation status and the cached rollup value alone; the only remote
    call it can make is one fetch through the base-layer program; and when
    the program or the address is missing it makes no call at all, clears
    the account and leaves the error slot as it was. *)
Theorem fetchCounterAccount_safe (r : Render) (env : Responses) (st : HookState) :
  let out := fetchCounterAccount r env st in
  completion out = Returned tt /\
  (isLoading (final out) = isLoading st /\
   isDelegating (final out) = isDelegating st /\
   delegationStatus (final out) = delegationStatus st /\
   erCounterValue (final out) = erCounterValue st) /\
  (length (filter isExternal (trace out)) <= 1)%nat /\
  (forall ev, In ev (trace out) -> isExternal ev = true ->
     exists p pda, program r = Some p /\ counterPubkey r = Some pda /\
                   ev = EvFetchCounter p pda) /\
  (program r = None \/ counterPubkey r = None ->
     trace out = [EvSet (SetCounterAccount None)] /\
     counterAccount (final out) = None /\
     error (final out) = error st).
Proof.
  intros out. subst out. unfold fetchCounterAccount.
  destruct (program r) as [p|]; [destruct (counterPubkey r) as [pda|]|].
  - unfold_async. all_steps;
      (split; [reflexivity|]); (split; [auto|]); (split; [simpl; lia|]);
      (split; [|intros [H|H]; discriminate]);
      intros ev Hin Hext;
      repeat (destruct Hin as [<-|Hin]; [try discriminate Hext; eauto|]);
      destruct Hin.
  - unfold_async. simpl. repeat split; auto.
    intros ev [<-|[]]. discriminate.
  - unfold_async. simpl. repeat split; auto.
    intros ev [<-|[]]. discriminate.
Qed.

Lemma fetchCounterAccount_safe_witness :
  let out := fetchCounterAccount disconnected (allSucceed IDL_address) staleState in
  trace out = [EvSet (SetCounterAccount None)] /\
  error (final out) = Some "old error".
Proof.
  destruct (fetchCounterAccount_safe disconnected (allSucceed IDL_address) staleState)
    as (_ & _ & _ & _ & H).
  destruct (H (or_introl eq_refl)) as (Ht & _ & He).
  split; [exact Ht | exact He].
Defined.

(** X2. With program and address at hand, what the fetch answers decides
    the two slots. A fetched account is published and the error slot
    cleared. A failure clears the account; the error slot is left as it was
    when the thrown value is no [Error] or its message contains "Account
    does not exist" or "could not find account", and receives the message
    in every other case. *)
Theorem fetchCounterAccount_outcomes
    (r : Render) (env : Responses) (st : HookState) (p : Program) (pda : PublicKey) :
  program r = Some p ->
  counterPubkey r = Some pda ->
  let out := fetchCounterAccount r env st in
  (forall a, on_base_fetch env = Returned a ->
     counterAccount (final out) = Some a /\ error (final out) = None) /\
  (forall m, on_base_fetch env = Threw (JsError m) ->
     substring "Account does not exist" m \/ substring "could not find account" m ->
     counterAccount (final out) = None /\ error (final out) = error st) /\
  (forall m, on_base_fetch env = Threw (JsError m) ->
     ~ substring "Account does not exist" m ->
     ~ substring "could not find account" m ->
     counterAccount (final out) = None /\ error (final out) = Some m) /\
  (on_base_fetch env = Threw JsNonError ->
     counterAccount (final out) = None /\ error (final out) = error st).
Proof.
  intros Hp Hpda out. subst out. unfold fetchCounterAccount.
  rewrite Hp, Hpda. unfold_async.
  split; [|split; [|split]].
  - intros a ->. simpl. destruct a; auto.
  - intros m -> Hsub. simpl.
    assert (Hexp : negb (includes m "Account does not exist")
                   && negb (includes m "could not find account") = false).
    { destruct Hsub as [H|H]; apply includes_substring in H; rewrite H;
        [reflexivity | apply andb_false_r]. }
    rewrite Hexp. simpl. auto.
  - intros m -> Ha Hb. simpl.
    assert (Hunexp : negb (includes m "Account does not exist")
                     && negb (includes m "could not find account") = true).
    { apply andb_true_iff. split; apply negb_true_iff;
        [destruct (includes m "Account does not exist") eqn:H
        |destruct (includes m "could not find account") eqn:H];
        try reflexivity; apply includes_substring in H; contradiction. }
    rewrite Hunexp. simpl. auto.
  - intros ->. simpl. auto.
Qed.

Lemma fetchCounterAccount_outcomes_witness :
  let env := withBaseFetch (allSucceed IDL_address)
               (Threw (JsError "Error: Account does not exist or has no data pda")) in
  let out := fetchCounterAccount (connected noSession) env staleState in
  counterAccount (final out) = None /\ error (final out) = Some "old error".
Proof.
  intros env.
  destruct (fetchCounterAccount_outcomes (connected noSession) env staleState
              (baseProgram "alice") "pda" eq_refl eq_refl) as (_ & H & _).
  apply (H "Error: Account does not exist or has no data pda" eq_refl).
  left. exists "Error: ", " or has no data pda". reflexivity.
Defined.

(** X3. After a status check the status is [checking] exactly when the
    address is unknown; with a known address the check always settles on
    [delegated] or [undelegated], whatever the two ledgers answer. Without
    an address it calls nothing and keeps the cached rollup value. *)
Theorem checkDelegationStatus_resolves (r : Render) (env : Responses) (st : HookState) :
  let out := checkDelegationStatus r env st in
  (delegationStatus (final out) = checking <-> counterPubkey r = None) /\
  (counterPubkey r = None ->
     trace out = [EvSet (SetDelegationStatus checking)] /\
     erCounterValue (final out) = erCounterValue st).
Proof.
  intros out. subst out. unfold checkDelegationStatus.
  destruct (counterPubkey r) as [pda|].
  - unfold_async. all_steps; (split; [split|]); intros; discriminate.
  - unfold_async. simpl. repeat split; auto.
Qed.

Lemma checkDelegationStatus_resolves_witness :
  let out := checkDelegationStatus disconnected (allSucceed IDL_address) delegatedState in
  delegationStatus (final out) = checking /\
  trace out = [EvSet (SetDelegationStatus checking)] /\
  erCounterValue (final out) = Some 9%Z.
Proof.
  destruct (checkDelegationStatus_resolves disconnected (allSucceed IDL_address)
              delegatedState) as [Hiff Hnone].
  split; [apply Hiff; reflexivity | apply Hnone; reflexivity].
Defined.

(** ** Delegation and commit *)

(** X4. When its transaction goes through, [delegate] has sent exactly one
    instruction, on the base layer with [skipPreflight], waited 2000 ms and
    then run the status check: its trace embeds the trace of the check, and
    the status and cached rollup value it leaves are the ones the check
    alone would leave. Both busy flags are down and the error slot is
    clear. *)
Theorem delegate_then_check
    (r : Render) (env : Responses) (st : HookState)
    (pk : PublicKey) (signature : string) :
  walletReady (wallet r) = Some pk ->
  on_rpc env = Returned signature ->
  let out := delegate r env st in
  let check := checkDelegationStatus r env st in
  completion out = Returned signature /\
  trace out
    = entryWrites OpDelegate
      ++ [EvRpc (baseProgram pk) MDelegate [("payer", Some pk)] true;
          EvSetTimeout 2000]
      ++ trace check
      ++ [EvSet (SetIsLoading false); EvSet (SetIsDelegating false)] /\
  delegationStatus (final out) = delegationStatus (final check) /\
  erCounterValue (final out) = erCounterValue (final check) /\
  isLoading (final out) = false /\
  isDelegating (final out) = false /\
  error (final out) = None.
Proof.
  intros Hw Hrpc out check. subst out check.
  unfold delegate, checkDelegationStatus, baseProgram. unfold_memo.
  rewrite Hw, (walletReady_publicKey _ _ Hw).
  unfold_async. rewrite Hrpc. all_steps; repeat split.
Qed.

Lemma delegate_then_check_witness :
  let out := delegate (connected noSession) (allSucceed DELEGATION_PROGRAM_ID)
               initialHookState in
  completion out = Returned "sig" /\
  delegationStatus (final out) = delegated /\
  erCounterValue (final out) = Some 9%Z.
Proof.
  destruct (delegate_then_check (connected noSession)
              (allSucceed DELEGATION_PROGRAM_ID) initialHookState "alice" "sig"
              eq_refl eq_refl) as (Hret & _ & Hs & Hv & _).
  split; [exact Hret|]. split; [exact Hs | exact Hv].
Defined.

(** X5. When the transaction of [delegate] is refused, nothing follows it:
    no wait, no status check, no call on the rollup; the status, the cached
    rollup value and the account stay as they were, both busy flags are
    down, the error slot holds the message and the same exception reaches
    the caller. *)
Theorem delegate_refused
    (r : Render) (env : Responses) (st : HookState)
    (pk : PublicKey) (e : JsThrown) :
  walletReady (wallet r) = Some pk ->
  on_rpc env = Threw e ->
  let out := delegate r env st in
  completion out = Threw e /\
  filter isExternal (trace out)
    = [EvRpc (baseProgram pk) MDelegate [("payer", Some pk)] true] /\
  delegationStatus (final out) = delegationStatus st /\
  erCounterValue (final out) = erCounterValue st /\
  counterAccount (final out) = counterAccount st /\
  isLoading (final out) = false /\
  isDelegating (final out) = false /\
  error (final out) = Some (errorMessage e "Failed to delegate counter").
Proof.
  intros Hw Hrpc out. subst out.
  unfold delegate, baseProgram. unfold_memo.
  rewrite Hw, (walletReady_publicKey _ _ Hw).
  unfold_async. rewrite Hrpc. simpl. repeat split.
Qed.

Lemma delegate_refused_witness :
  let out := delegate (connected noSession)
               (withRpc (allSucceed IDL_address) (Threw JsNonError))
               initialHookState in
  completion out = Threw JsNonError /\
  delegationStatus (final out) = checking /\
  error (final out) = Some "Failed to delegate counter".
Proof.
  destruct (delegate_refused (connected noSession)
              (withRpc (allSucceed IDL_address) (Threw JsNonError))
              initialHookState "alice" JsNonError eq_refl eq_refl)
    as (Hret & _ & Hs & _ & _ & _ & _ & He).
  split; [exact Hret|]. split; [exact Hs | exact He].
Defined.

(** X6. A [commit] whose transaction is built, anchored, signed, sent and
    confirmed has submitted it to the rollup, signed and paid by the
    wallet's own key, then asked for the commitment signature and fetched
    the base-layer account, in this order; it returns the rollup hash. *)
Theorem commit_steps
    (r : Render) (env : Responses) (st : HookState)
    (pk pda : PublicKey) (blockhash txHash : string) :
  walletReady (wallet r) = Some pk ->
  counterPubkey r = Some pda ->
  on_transaction env = Returned tt ->
  on_er_getLatestBlockhash env = Returned blockhash ->
  on_wallet_signTransaction env = Returned tt ->
  on_er_sendRawTransaction env = Returned txHash ->
  on_er_confirmTransaction env = Returned tt ->
  let out := commit r env st in
  completion out = Returned txHash /\
  filter isExternal (trace out)
    = rollupSubmission MCommit pk blockhash txHash
      ++ [EvGetCommitmentSignature txHash RollupLedger;
          EvFetchCounter (baseProgram pk) pda] /\
  isLoading (final out) = false.
Proof.
  intros Hw Hpda Htx Hbh Hsign Hsend Hconf out. subst out.
  unfold_ops. unfold_memo. unfold rollupSubmission, baseProgram.
  pose proof (walletReady_publicKey _ _ Hw) as Hpk.
  rewrite Hw, Hpk, Hpda.
  unfold_async. rewrite Htx, Hbh. simpl. rewrite Hsign. simpl.
  rewrite Hsend. simpl. rewrite Hconf. all_steps; repeat split.
Qed.

Lemma commit_steps_witness :
  let out := commit (connected liveSession) (allSucceed DELEGATION_PROGRAM_ID)
               delegatedState in
  completion out = Returned "erSig" /\
  filter isExternal (trace out)
    = rollupSubmission MCommit "alice" "blockhash" "erSig"
      ++ [EvGetCommitmentSignature "erSig" RollupLedger;
          EvFetchCounter (baseProgram "alice") "pda"].
Proof.
  destruct (commit_steps (connected liveSession) (allSucceed DELEGATION_PROGRAM_ID)
              delegatedState "alice" "pda" "blockhash" "erSig"
              eq_refl eq_refl eq_refl eq_refl eq_refl eq_refl eq_refl)
    as (Hret & Hcalls & _).
  split; [exact Hret | exact Hcalls].
Defined.

(** X7. [commit] never writes the delegation status or the cached rollup
    value, on any path; and neither its completion nor the state it leaves
    depends on what [GetCommitmentSignature] answers. *)
Theorem commit_keeps_delegation
    (r : Render) (env : Responses) (st : HookState) (answer : Completion string) :
  let out := commit r env st in
  delegationStatus (final out) = delegationStatus st /\
  erCounterValue (final out) = erCounterValue st /\
  completion (commit r (withCommitmentSignature env answer) st) = completion out /\
  final (commit r (withCommitmentSignature env answer) st) = final out.
Proof.
  intros out. subst out. unfold_ops. unfold_memo. unfold_async.
  destruct answer; all_steps; repeat split.
Qed.

(** X8. An [undelegate] that throws has changed neither the status, nor the
    cached rollup value, nor the account: the optimistic update of lines
    596-597 and the refresh happen only after the transaction is confirmed.
    It has not waited either, the busy flag is down and the error slot holds
    the message. *)
Theorem undelegate_failure_keeps_state
    (r : Render) (env : Responses) (st : HookState) (e : JsThrown) :
  let out := undelegate r env st in
  completion out = Threw e ->
  delegationStatus (final out) = delegationStatus st /\
  erCounterValue (final out) = erCounterValue st /\
  counterAccount (final out) = counterAccount st /\
  existsb (fun ev => match ev with EvSetTimeout _ => true | _ => false end)
    (trace out) = false /\
  existsb isBaseFetch (trace out) = false /\
  (ready OpUndelegate r = true ->
   isLoading (final out) = false /\
   error (final out) = Some (errorMessage e "Failed to undelegate counter")).
Proof.
  intros out. subst out. unfold ready. unfold_ops. unfold_memo. unfold_async.
  all_steps; intros H; try discriminate H; inversion H; subst;
    repeat split; try reflexivity; discriminate.
Qed.

Lemma undelegate_failure_keeps_state_witness :
  let env := mkResponses (Returned "sig") (Returned tt) (Returned "blockhash")
               (Returned tt) (Returned tt) (Threw (JsError "blockhash not found"))
               (Returned tt) (Returned (mkCounterAccount 7 "alice"))
               (Returned (mkCounterAccount 9 "alice")) (Returned None)
               (Returned "commitSig") in
  let out := undelegate (connected noSession) env delegatedState in
  delegationStatus (final out) = delegated /\
  erCounterValue (final out) = Some 9%Z /\
  error (final out) = Some "blockhash not found".
Proof.
  intros env.
  destruct (undelegate_failure_keeps_state (connected noSession) env delegatedState
              (JsError "blockhash not found") eq_refl)
    as (Hs & Hv & _ & _ & _ & Hready).
  split; [exact Hs|]. split; [exact Hv|].
  exact (proj2 (Hready eq_refl)).
Defined.

(** ** What a rollup action leaves in the state *)

(** X9. A rollup action never writes the delegation status, the account or
    the delegating flag. The cached rollup value afterwards is the count
    just read from the rollup when the action returned and that read
    answered; in every other case, a failed action included, it is the
    value cached before. *)
Theorem performErAction_cache
    (mb : MethodBuilder) (name : string) (r : Render) (env : Responses)
    (st : HookState) :
  let out := performErAction mb name r env st in
  delegationStatus (final out) = delegationStatus st /\
  counterAccount (final out) = counterAccount st /\
  isDelegating (final out) = isDelegating st /\
  (forall h a, completion out = Returned h -> on_er_fetch env = Returned a ->
     erCounterValue (final out) = Some (count a)) /\
  (forall h e, completion out = Returned h -> on_er_fetch env = Threw e ->
     erCounterValue (final out) = erCounterValue st) /\
  (forall e, completion out = Threw e ->
     erCounterValue (final out) = erCounterValue st).
Proof.
  intros out. subst out. unfold_ops. unfold_memo. unfold_async.
  all_steps; repeat split; intros; try discriminate; try reflexivity;
    congruence.
Qed.

Lemma performErAction_cache_witness :
  let mb := mkMethodBuilder (baseProgram "alice") MDecrement in
  let out := performErAction mb "decrement" (connected liveSession)
               (allSucceed DELEGATION_PROGRAM_ID) initialHookState in
  erCounterValue (final out) = Some 9%Z /\
  delegationStatus (final out) = checking.
Proof.
  intros mb.
  destruct (performErAction_cache mb "decrement" (connected liveSession)
              (allSucceed DELEGATION_PROGRAM_ID) initialHookState)
    as (Hs & _ & _ & Hfresh & _).
  split; [exact (Hfresh "erSig" (mkCounterAccount 9 "alice") eq_refl eq_refl)
         | exact Hs].
Defined.

(** X10. No operation retries or doubles its work: in any one invocation at
    most one transaction is submitted and at most one signature is asked
    for, whatever fails along the way. *)
Theorem operations_submit_once
    (op : Operation) (r : Render) (env : Responses) (st : HookState) :
  let out := runOp op r env st in
  (length (filter isSubmission (trace out)) <= 1)%nat /\
  (length (filter (fun ev => match ev with
                             | EvSignTransaction _ _ => true
                             | _ => false
                             end) (trace out)) <= 1)%nat.
Proof.
  intros out. subst out.
  destruct op; unfold_ops; unfold_memo; unfold_async;
    all_steps; split; simpl; lia.
Qed.

(** ** The account-change callbacks *)

(** X11. The rollup callback writes nothing but the cached rollup value: it
    stores the decoded count and leaves the five other slots (account,
    busy flag, delegating flag, error, status) as they were, or on a
    decoding failure leaves the whole state as it was; it never throws and
    calls nothing. *)
Theorem onErAccountChange_only_cache
    (decoded : Completion CounterAccount) (st : HookState) :
  let out := onErAccountChange decoded st in
  completion out = Returned tt /\
  filter isExternal (trace out) = [] /\
  counterAccount (final out) = counterAccount st /\
  delegationStatus (final out) = delegationStatus st /\
  error (final out) = error st /\
  isLoading (final out) = isLoading st /\
  (forall a, decoded = Returned a -> erCounterValue (final out) = Some (count a)) /\
  (forall e, decoded = Threw e -> final out = st) /\
  isDelegating (final out) = isDelegating st /\
  (forall a, decoded = Returned a ->
     final out = mkHookState (counterAccount st) (isLoading st) (isDelegating st)
                   (error st) (delegationStatus st) (Some (count a)) /\
     trace out = [EvSet (SetErCounterValue (Some (count a)))]).
Proof.
  intros out. subst out. unfold onErAccountChange, attempt. unfold_async.
  destruct decoded; simpl; repeat split; intros; try discriminate; congruence.
Qed.

Lemma onErAccountChange_only_cache_witness :
  erCounterValue
    (final (onErAccountChange (Returned (mkCounterAccount 12 "alice")) delegatedState))
  = Some 12%Z /\
  final (onErAccountChange (Threw (JsError "bad discriminator")) delegatedState)
  = delegatedState.
Proof.
  split.
  - destruct (onErAccountChange_only_cache (Returned (mkCounterAccount 12 "alice"))
                delegatedState) as (_ & _ & _ & _ & _ & _ & H & _).
    exact (H _ eq_refl).
  - destruct (onErAccountChange_only_cache (Threw (JsError "bad discriminator"))
                delegatedState) as (_ & _ & _ & _ & _ & _ & _ & H & _).
    exact (H _ eq_refl).
Defined.

(** X12. The base-layer callback never throws. When the notified data
    decode, it publishes the account, clears the error slot and then runs
    the status check, so that status and cached rollup value end as the
    check leaves them; when they do not decode, it changes nothing and
    starts no check. *)
Theorem onBaseAccountChange_rechecks
    (r : Render) (env : Responses) (decoded : Completion CounterAccount)
    (st : HookState) :
  let out := onBaseAccountChange r env decoded st in
  completion out = Returned tt /\
  (forall a, decoded = Returned a ->
     counterAccount (final out) = Some a /\
     error (final out) = None /\
     trace out = [EvSet (SetCounterAccount (Some a)); EvSet (SetError None)]
                 ++ trace (checkDelegationStatus r env st) /\
     delegationStatus (final out)
       = delegationStatus (final (checkDelegationStatus r env st)) /\
     erCounterValue (final out)
       = erCounterValue (final (checkDelegationStatus r env st))) /\
  (forall e, decoded = Threw e -> final out = st /\ trace out = []).
Proof.
  intros out. subst out.
  unfold onBaseAccountChange, attempt, checkDelegationStatus. unfold_async.
  destruct decoded as [[c a]|e]; simpl.
  - split; [all_steps; reflexivity|]. split; [|intros; discriminate].
    intros a' H. inversion H; subst. all_steps; repeat split.
  - split; [reflexivity|]. split; [intros; discriminate|]. auto.
Qed.

Lemma onBaseAccountChange_rechecks_witness :
  let out := onBaseAccountChange (connected noSession) (allSucceed IDL_address)
               (Returned (mkCounterAccount 3 "alice")) delegatedState in
  counterAccount (final out) = Some (mkCounterAccount 3 "alice") /\
  delegationStatus (final out) = undelegated /\
  erCounterValue (final out) = None.
Proof.
  destruct (onBaseAccountChange_rechecks (connected noSession) (allSucceed IDL_address)
              (Returned (mkCounterAccount 3 "alice")) delegatedState) as (_ & H & _).
  destruct (H _ eq_refl) as (Ha & _ & _ & Hs & Hv).
  split; [exact Ha|]. split; [exact Hs | exact Hv].
Defined.

(** ** The handlers of the counter component *)

(** X13. The three handlers of the component route by the displayed status
    and swallow failures. None of them throws; while the status is
    [delegated] they make no call on the base layer, and while it is not
    they make no call on the rollup; and the signature they record is the
    one the ledger returned for the submitted transaction. *)
Theorem handlers_route_by_status
    (parsed : option Z) (r : Render) (env : Responses) (st : HookState)
    (h : Async (list UiUpdate)) :
  In h [handleIncrement r env; handleDecrement r env; handleSet parsed r env] ->
  let out := h st in
  (exists ups, completion out = Returned ups /\
     forall tx, In (SetLastTxSignature tx) ups ->
       on_rpc env = Returned tx \/ on_er_sendRawTransaction env = Returned tx) /\
  (delegationStatus st = delegated ->
     existsb touchesBase (trace out) = false) /\
  (delegationStatus st <> delegated ->
     existsb touchesRollup (trace out) = false).
Proof.
  intros Hin out. subst out.
  assert (Hneq : delegationStatus st <> delegated ->
                 status_eqb (delegationStatus st) delegated = false).
  { destruct (delegationStatus st); simpl; auto. intros H. contradiction H. reflexivity. }
  assert (Heq : delegationStatus st = delegated ->
                status_eqb (delegationStatus st) delegated = true)
    by (intros ->; reflexivity).
  destruct Hin as [<-|[<-|[<-|[]]]];
    unfold handleIncrement, handleDecrement, handleSet, handleAction;
    destruct (status_eqb (delegationStatus st) delegated) eqn:Hs;
    unfold_ops; unfold_memo;
    (destruct (walletReady (wallet r)) as [pk|] eqn:Hw;
     [pose proof (walletReady_publicKey _ _ Hw) as Hpk; rewrite Hpk|]);
    unfold_async; all_steps;
    (split; [eexists; split; [reflexivity|];
             intros tx Hin; simpl in Hin;
             repeat (destruct Hin as [Hin|Hin];
                     [try discriminate Hin; inversion Hin; subst; auto|]);
             try contradiction
            |split; intros Hd;
             [try reflexivity; apply Heq in Hd; discriminate Hd
             |try reflexivity; apply Hneq in Hd; discriminate Hd]]).
Qed.

Lemma handlers_route_by_status_witness :
  let out := handleIncrement (connected noSession) (allSucceed IDL_address) staleState in
  completion out = Returned [SetLastTxSignature "sig"] /\
  existsb touchesRollup (trace out) = false.
Proof.
  destruct (handlers_route_by_status None (connected noSession) (allSucceed IDL_address)
              staleState (handleIncrement (connected noSession) (allSucceed IDL_address))
              (or_introl eq_refl)) as (_ & _ & Hbase).
  split; [reflexivity|]. apply Hbase. discriminate.
Defined.

(** X14. [handleSet] submits nothing for an input that does not parse or
    parses to a negative number: no call, no state change, and the input
    field is not cleared. For any other number it attempts the set and
    clears the input field afterwards even when the operation failed. Every
    transaction it submits is a set of exactly the parsed value, which is
    then below 2^53; for a value of 2^53 or more the conversion to a BN
    throws and nothing is submitted. With a ready wallet, a known address
    and a status other than [delegated], a value below 2^53 leads to exactly
    one call, the base-layer [rpc] of [set] with that value. *)
Theorem handleSet_validates
    (parsed : option Z) (r : Render) (env : Responses) (st : HookState) :
  let out := handleSet parsed r env st in
  (parsed = None \/ (exists v, parsed = Some v /\ (v < 0)%Z) ->
     out = (Returned [], st, [])) /\
  (forall v, parsed = Some v -> (0 <= v)%Z ->
     exists ups, completion out = Returned ups /\
       In (SetSetValue "") ups /\
       (forall p m a skip, In (EvRpc p m a skip) (trace out) ->
          m = MSet v /\ (v < 2 ^ 53)%Z) /\
       (forall l tx skip, In (EvSendRawTransaction l tx skip) (trace out) ->
          tx_method tx = MSet v /\ (v < 2 ^ 53)%Z) /\
       ((2 ^ 53 <= v)%Z ->
          existsb isSubmission (trace out) = false /\ ups = [SetSetValue ""]) /\
       (forall pk pda,
          (v < 2 ^ 53)%Z -> delegationStatus st <> delegated ->
          walletReady (wallet r) = Some pk -> counterPubkey r = Some pda ->
          filter isExternal (trace out)
            = [EvRpc (baseProgram pk) (MSet v) (baseAccounts pda pk) false])).
Proof.
  intros out. subst out. split.
  - intros [-> | (v & -> & Hv)]; unfold handleSet; [reflexivity|].
    apply Z.ltb_lt in Hv. rewrite Hv. reflexivity.
  - intros v -> Hv. unfold handleSet, handleAction.
    assert (Hneg : (v <? 0)%Z = false) by (apply Z.ltb_ge; exact Hv).
    rewrite Hneg.
    assert (Hneq : delegationStatus st <> delegated ->
                   status_eqb (delegationStatus st) delegated = false).
    { destruct (delegationStatus st); simpl; auto. intros H. contradiction H. reflexivity. }
    assert (Habs : Z.abs v = v) by (apply Z.abs_eq; exact Hv).
    destruct (Z.abs v <? 2 ^ 53)%Z eqn:Hbn;
      [apply Z.ltb_lt in Hbn | apply Z.ltb_ge in Hbn]; rewrite Habs in Hbn;
      destruct (status_eqb (delegationStatus st) delegated) eqn:Hs;
      unfold_ops; unfold_memo; unfold newBN, attempt; rewrite Habs;
      [assert (Hc : (v <? 2 ^ 53)%Z = true) by (apply Z.ltb_lt; exact Hbn)
      |assert (Hc : (v <? 2 ^ 53)%Z = true) by (apply Z.ltb_lt; exact Hbn)
      |assert (Hc : (v <? 2 ^ 53)%Z = false) by (apply Z.ltb_ge; exact Hbn)
      |assert (Hc : (v <? 2 ^ 53)%Z = false) by (apply Z.ltb_ge; exact Hbn)];
      rewrite Hc; clear Hc;
      (destruct (walletReady (wallet r)) as [pk|] eqn:Hw;
       [pose proof (walletReady_publicKey _ _ Hw) as Hpk; rewrite Hpk|]);
      unfold_async; all_cases;
      repeat match goal with
             | H : serialize _ _ = Returned _ |- _ =>
                 apply serialize_same in H; subst
             end;
      (eexists; split; [reflexivity|]);
      (split; [simpl; auto|]);
      (split; [intros ? ? ? ? Hin;
               repeat (destruct Hin as [Hin|Hin];
                       [try discriminate Hin; inversion Hin; subst; auto|]);
               contradiction|]);
      (split; [intros ? ? ? Hin;
               repeat (destruct Hin as [Hin|Hin];
                       [try discriminate Hin; inversion Hin; subst; auto|]);
               contradiction|]).
    all: change (Z.pow_pos 2 53) with (2 ^ 53)%Z in *.
    all: (split; [intros Hbig; try lia; split; reflexivity|]).
    all: intros pk' pda' Hsmall Hd Hw' Hpda'; try lia.
    all: try (apply Hneq in Hd; discriminate Hd).
    all: try discriminate.
    all: inversion Hw'; subst; inversion Hpda'; subst; reflexivity.
Qed.

Lemma handleSet_validates_witness :
  handleSet (Some (-3)%Z) (connected noSession) (allSucceed IDL_address) staleState
    = (Returned [], staleState, []) /\
  completion (handleSet (Some 41%Z) (connected noSession)
                (withRpc (allSucceed IDL_address) (Threw (JsError "CounterUnderflow")))
                staleState)
    = Returned [SetSetValue ""] /\
  filter isExternal
    (trace (handleSet (Some 41%Z) (connected noSession) (allSucceed IDL_address)
              staleState))
    = [EvRpc (baseProgram "alice") (MSet 41) (baseAccounts "pda" "alice") false] /\
  existsb isSubmission
    (trace (handleSet (Some (2 ^ 53)%Z) (connected noSession) (allSucceed IDL_address)
              staleState)) = false.
Proof.
  split; [|split; [|split]].
  - destruct (handleSet_validates (Some (-3)%Z) (connected noSession)
                (allSucceed IDL_address) staleState) as [H _].
    apply H. right. exists (-3)%Z. split; [reflexivity | lia].
  - destruct (handleSet_validates (Some 41%Z) (connected noSession)
                (withRpc (allSucceed IDL_address) (Threw (JsError "CounterUnderflow")))
                staleState) as [_ H].
    destruct (H 41%Z eq_refl ltac:(lia)) as (ups & Hups & _).
    reflexivity.
  - destruct (handleSet_validates (Some 41%Z) (connected noSession)
                (allSucceed IDL_address) staleState) as [_ H].
    destruct (H 41%Z eq_refl ltac:(lia)) as (ups & _ & _ & _ & _ & _ & Hcall).
    apply Hcall; first [lia | discriminate | reflexivity].
  - destruct (handleSet_validates (Some (2 ^ 53)%Z) (connected noSession)
                (allSucceed IDL_address) staleState) as [_ H].
    destruct (H (2 ^ 53)%Z eq_refl ltac:(lia)) as (ups & _ & _ & _ & _ & Hbig & _).
    apply Hbig. lia.
Defined.

(** X15. What the component displays after the hook's transitions: once
    [undelegate] has returned, the displayed value is the count just fetched
    from the base layer (nothing when that fetch failed), never the rollup
    value cached before; and after a rollup action returned with a
    successful read while the status is [delegated], it is the count read
    from the rollup. *)
Theorem displayValue_follows_ledger
    (r : Render) (env : Responses) (st : HookState) (h : string) :
  (completion (undelegate r env st) = Returned h ->
     displayValue (final (undelegate r env st))
       = match on_base_fetch env with
         | Returned a => Some (count a)
         | Threw _ => None
         end) /\
  (forall mb name a,
     delegationStatus st = delegated ->
     completion (performErAction mb name r env st) = Returned h ->
     on_er_fetch env = Returned a ->
     displayValue (final (performErAction mb name r env st)) = Some (count a)).
Proof.
  split.
  - unfold displayValue. unfold_ops. unfold_memo. unfold_async.
    all_steps; intros H; try discriminate H; reflexivity.
  - intros mb name a Hd.
    destruct st as [ca il idg er ds ev]. simpl in Hd. subst ds.
    unfold displayValue. unfold_ops. unfold_memo. unfold_async.
    all_steps; intros H Hf; try discriminate H; try discriminate Hf;
      inversion Hf; subst; reflexivity.
Qed.

Lemma displayValue_follows_ledger_witness :
  displayValue (final (undelegate (connected noSession)
                         (allSucceed DELEGATION_PROGRAM_ID) delegatedState))
  = Some 7%Z.
Proof.
  destruct (displayValue_follows_ledger (connected noSession)
              (allSucceed DELEGATION_PROGRAM_ID) delegatedState "erSig") as [H _].
  exact (H eq_refl).
Defined.

(** ** The base-layer subscription and unmounting *)

Lemma baseDeps_eqb_eq (a b : BaseDeps) : baseDeps_eqb a b = true <-> a = b.
Proof.
  destruct a as [p k q], b as [p' k' q']. unfold baseDeps_eqb. simpl.
  rewrite !andb_true_iff, !(option_eqb_eq _ program_eqb_eq),
    (option_eqb_eq _ String.eqb_eq).
  split; [intros [[-> ->] ->]; reflexivity | intros H; inversion H; auto].
Qed.

Lemma filter_keeps_foreign (foreign : list Listener) (bound id : nat) :
  forallb (fun l => Nat.ltb (l_id l) bound) foreign = true ->
  (bound <= id)%nat ->
  filter (fun l => negb (Nat.eqb (l_id l) id)) foreign = foreign.
Proof.
  intros Hall Hid. induction foreign as [|l foreign IH]; [reflexivity|].
  simpl in *. apply andb_true_iff in Hall. destruct Hall as [Hl Hall].
  apply Nat.ltb_lt in Hl.
  assert (Hne : Nat.eqb (l_id l) id = false) by (apply Nat.eqb_neq; lia).
  rewrite Hne. simpl. f_equal. apply IH. exact Hall.
Qed.

Lemma base_cleanup_restores (foreign : list Listener) (bound : nat) (e : Engine) :
  forallb (fun l => Nat.ltb (l_id l) bound) foreign = true ->
  base_consistent foreign bound e ->
  listeners (runCleanup (e_baseCleanup e) (e_connection e)) = foreign /\
  (bound <= nextId (runCleanup (e_baseCleanup e) (e_connection e)))%nat.
Proof.
  intros Hall (Hb & _ & H). destruct (e_baseCleanup e) as [id|]; simpl.
  - destruct H as (Hid & pda & _ & -> & _). split; [|exact Hb].
    rewrite filter_app, (filter_keeps_foreign _ _ _ Hall Hid). simpl.
    rewrite Nat.eqb_refl. simpl. apply app_nil_r.
  - split; [apply H | exact Hb].
Qed.

Lemma baseEffect_consistent (foreign : list Listener) (bound : nat)
    (r : Render) (st : HookState) (c c2 : Connection) (ed : ErDeps) (ec : option nat) :
  listeners c = foreign -> (bound <= nextId c)%nat ->
  base_consistent foreign bound
    (mkEngine r st (snd (baseEffect (baseDeps r) c)) c2 (baseDeps r)
       (fst (baseEffect (baseDeps r) c)) ed ec).
Proof.
  intros Hl Hb. unfold base_consistent, baseEffect, baseDeps, baseSubscriptionWanted.
  simpl.
  destruct (program r) as [p|]; [destruct (counterPubkey r) as [pda|]|]; simpl.
  - split; [lia|]. split; [reflexivity|]. split; [exact Hb|].
    exists pda. rewrite Hl. auto.
  - auto.
  - auto.
Qed.

Lemma mount_base_consistent (c0 : Connection) (r : Render) (st : HookState) :
  base_consistent (listeners c0) (nextId c0) (mount c0 r st).
Proof.
  unfold mount.
  pose proof (baseEffect_consistent (listeners c0) (nextId c0) r st c0
                (snd (erEffect (erDeps r st) newConnection)) (erDeps r st)
                (fst (erEffect (erDeps r st) newConnection)) eq_refl (le_n _)) as H.
  destruct (baseEffect (baseDeps r) c0) as [bc c1].
  destruct (erEffect (erDeps r st) newConnection) as [ec c2].
  exact H.
Qed.

Lemma rerender_base_consistent (foreign : list Listener) (bound : nat)
    (fresh : bool) (r : Render) (st : HookState) (e : Engine) :
  forallb (fun l => Nat.ltb (l_id l) bound) foreign = true ->
  base_consistent foreign bound e ->
  base_consistent foreign bound (rerender fresh r st e).
Proof.
  intros Hall Hinv. unfold rerender.
  destruct (base_cleanup_restores foreign bound e Hall Hinv) as [Hclean Hbound].
  destruct (fresh || negb (baseDeps_eqb (e_baseDeps e) (baseDeps r))) eqn:Hrun.
  - pose proof (fun c2 ed ec =>
        baseEffect_consistent foreign bound r st _ c2 ed ec Hclean Hbound) as H.
    destruct (baseEffect (baseDeps r) (runCleanup (e_baseCleanup e) (e_connection e)))
      as [bc c1].
    destruct (if fresh || negb (erDeps_eqb (e_erDeps e) (erDeps r st))
              then erEffect (erDeps r st) (runCleanup (e_erCleanup e) (e_erConnection e))
              else (e_erCleanup e, e_erConnection e)) as [ec c2].
    apply H.
  - apply orb_false_iff in Hrun. destruct Hrun as [_ Heq].
    apply negb_false_iff, baseDeps_eqb_eq in Heq.
    destruct (if fresh || negb (erDeps_eqb (e_erDeps e) (erDeps r st))
              then erEffect (erDeps r st) (runCleanup (e_erCleanup e) (e_erConnection e))
              else (e_erCleanup e, e_erConnection e)) as [ec c2].
    destruct Hinv as (Hb & Hdeps & Hinv). rewrite Hdeps in Heq.
    unfold baseDeps in Heq. injection Heq as Hp Hk _.
    unfold base_consistent, baseSubscriptionWanted in *. simpl.
    rewrite <- Hp, <- Hk.
    split; [exact Hb|]. split; [reflexivity|]. exact Hinv.
Qed.

Lemma replay_base_consistent (c0 : Connection) (r : Render) (st : HookState)
    (renders : list (bool * Render * HookState)) :
  idsBelow c0 = true ->
  base_consistent (listeners c0) (nextId c0) (replay c0 r st renders).
Proof.
  intros Hids. unfold replay.
  pose proof (mount_base_consistent c0 r st) as H.
  revert H. generalize (mount c0 r st).
  induction renders as [|[[fresh r'] st'] renders IH]; intros e He; simpl.
  - exact He.
  - apply IH. apply rerender_base_consistent; assumption.
Qed.

Lemma replay_lifecycle (c0 : Connection) (r : Render) (st : HookState)
    (renders : list (bool * Render * HookState)) :
  lifecycle (replay c0 r st renders).
Proof.
  unfold replay. pose proof (lc_mount c0 r st) as H.
  revert H. generalize (mount c0 r st).
  induction renders as [|[[fresh r'] st'] renders IH]; intros e He; simpl.
  - exact He.
  - apply IH. apply lc_rerender. exact He.
Qed.

(** X16. On the base connection, which the hook shares, every listener that
    was registered before the hook mounted is still registered after any
    number of renders, in the same order; behind them the hook has exactly
    one listener of its own, at the counter address, when the program and
    the address exist, and none otherwise, whatever the delegation status
    is. *)
Theorem base_subscription_invariant
    (c0 : Connection) (r : Render) (st : HookState)
    (renders : list (bool * Render * HookState)) :
  idsBelow c0 = true ->
  let e := replay c0 r st renders in
  exists own,
    listeners (e_connection e) = listeners c0 ++ own /\
    (baseSubscriptionWanted (e_render e) = true ->
       exists id pda, counterPubkey (e_render e) = Some pda /\
         own = [mkListener id pda "confirmed"] /\ (nextId c0 <= id)%nat) /\
    (baseSubscriptionWanted (e_render e) = false -> own = []).
Proof.
  intros Hids e.
  destruct (replay_base_consistent c0 r st renders Hids) as (_ & _ & H).
  fold e in H. destruct (e_baseCleanup e) as [id|].
  - destruct H as (Hid & pda & Hpda & Hl & Hw).
    exists [mkListener id pda "confirmed"]. split; [exact Hl|]. split.
    + intros _. exists id, pda. auto.
    + rewrite Hw. discriminate.
  - destruct H as [Hl Hw]. exists []. split; [rewrite app_nil_r; exact Hl|].
    split; [rewrite Hw; discriminate | reflexivity].
Qed.

Lemma base_subscription_invariant_witness :
  let c0 := mkConnection [mkListener 0 "other" "confirmed"] 1 in
  let e := replay c0 disconnected initialHookState
             [(false, connected noSession, initialHookState);
              (false, connected noSession, delegatedState)] in
  listeners (e_connection e)
    = [mkListener 0 "other" "confirmed"; mkListener 1 "pda" "confirmed"].
Proof.
  intros c0 e.
  destruct (base_subscription_invariant c0 disconnected initialHookState
              [(false, connected noSession, initialHookState);
               (false, connected noSession, delegatedState)] eq_refl)
    as (own & Hl & _ & _).
  reflexivity.
Defined.

(** X17. Unmounting after any history removes the hook's listeners and
    only those: the base connection holds exactly the listeners it held
    before the hook mounted, and the rollup connection holds none. This
    holds as well when no subscription was ever established. *)
Theorem unmount_restores
    (c0 : Connection) (r : Render) (st : HookState)
    (renders : list (bool * Render * HookState)) :
  idsBelow c0 = true ->
  let e := replay c0 r st renders in
  listeners (fst (unmount e)) = listeners c0 /\
  listeners (snd (unmount e)) = [].
Proof.
  intros Hids e. unfold unmount. simpl. split.
  - apply (base_cleanup_restores (listeners c0) (nextId c0)); [exact Hids|].
    apply replay_base_consistent. exact Hids.
  - apply runCleanup_clears, lifecycle_consistent, replay_lifecycle.
Qed.

Lemma unmount_restores_witness :
  let c0 := mkConnection [mkListener 0 "other" "confirmed"] 1 in
  let e := replay c0 (connected noSession) delegatedState [] in
  listeners (fst (unmount e)) = [mkListener 0 "other" "confirmed"] /\
  listeners (snd (unmount e)) = [] /\
  listeners (fst (unmount (replay c0 disconnected initialHookState [])))
    = [mkListener 0 "other" "confirmed"].
Proof.
  intros c0 e.
  destruct (unmount_restores c0 (connected noSession) delegatedState [] eq_refl)
    as [Hb He].
  destruct (unmount_restores c0 disconnected initialHookState [] eq_refl) as [Hb' _].
  split; [exact Hb|]. split; [exact He | exact Hb'].
Defined.

(** ** The accounts of a rollup instruction *)

(** X18. Every transaction a rollup action signs or sends hands the
    instruction exactly the session manager's token as [sessionToken] (null
    when there is none) and the counter address as [counter]. The key it
    names as [signer] is the transaction's fee payer whenever no token is
    present or the session wallet can sign. *)
Theorem performErAction_accounts
    (mb : MethodBuilder) (name : string) (r : Render) (env : Responses)
    (st : HookState) (l : Ledger) (tx : Transaction) (skip : bool) :
  In (EvSendRawTransaction l tx skip) (trace (performErAction mb name r env st)) ->
  tx_method tx = mb_method mb /\
  account "sessionToken" (tx_accounts tx) = Some (sw_sessionToken (sessionWallet r)) /\
  (exists pda, counterPubkey r = Some pda /\
               account "counter" (tx_accounts tx) = Some (Some pda)) /\
  (hasSession r = false \/ sw_signTransaction (sessionWallet r) = true ->
     account "signer" (tx_accounts tx) = Some (tx_feePayer tx)).
Proof.
  intros Hin.
  pose proof (In_external _ _ Hin eq_refl) as Hin'.
  destruct (performErAction_calls mb name r env st)
    as [Hnil|(pk & pda & bh & h & n & Hw & Hpda & Heq & _)].
  - rewrite Hnil in Hin'. destruct Hin'.
  - rewrite Heq in Hin'. apply In_firstn in Hin'.
    unfold rollupCalls, rollupSigner, rollupUnsigned, rollupFeePayer, erAccounts,
      sessionSigns in Hin'.
    simpl in Hin'.
    repeat (destruct Hin' as [Hc|Hin']; [try discriminate Hc|]); [|destruct Hin'].
    inversion Hc; subst; clear Hc. simpl.
    split; [reflexivity|]. split; [|split].
    + unfold hasSession. destruct (sw_sessionToken (sessionWallet r)); reflexivity.
    + exists pda. auto.
    + intros [Hno | Hcan].
      * rewrite Hno. reflexivity.
      * rewrite Hcan, andb_true_r. destruct (hasSession r); reflexivity.
Qed.

Lemma performErAction_accounts_witness :
  let mb := mkMethodBuilder (baseProgram "alice") MIncrement in
  let tx := signedBy (rollupUnsigned (connected liveSession) mb "pda" "blockhash")
              SessionKey in
  account "signer" (tx_accounts tx) = Some (Some "sessionKey") /\
  account "sessionToken" (tx_accounts tx) = Some (Some "sessionToken") /\
  tx_feePayer tx = Some "sessionKey".
Proof.
  intros mb tx.
  destruct (performErAction_accounts mb "increment" (connected liveSession)
              (allSucceed DELEGATION_PROGRAM_ID) delegatedState RollupLedger tx true)
    as (_ & Htoken & _ & Hsigner).
  - simpl. do 5 right. left. reflexivity.
  - split; [|split; [exact Htoken | reflexivity]].
    rewrite (Hsigner (or_intror eq_refl)). reflexivity.
Defined.

(** ** Edge cases and frames *)

(** X19. [initialize] does not need the address: with a ready wallet and
    the address not yet derived it still sends its transaction, and its
    closing refresh then makes no fetch and clears the displayed account,
    although the transaction went through. *)
Theorem initialize_without_address
    (r : Render) (env : Responses) (st : HookState)
    (pk : PublicKey) (signature : string) :
  walletReady (wallet r) = Some pk ->
  counterPubkey r = None ->
  on_rpc env = Returned signature ->
  let out := initialize r env st in
  completion out = Returned signature /\
  filter isExternal (trace out)
    = [EvRpc (baseProgram pk) MInitialize [("authority", Some pk)] false] /\
  counterAccount (final out) = None /\
  error (final out) = None /\
  isLoading (final out) = false.
Proof.
  intros Hw Hpda Hrpc out. subst out.
  unfold_ops. unfold_memo. unfold baseProgram.
  pose proof (walletReady_publicKey _ _ Hw) as Hpk.
  rewrite Hw, Hpk, Hpda.
  unfold_async. rewrite Hrpc. simpl. repeat split.
Qed.

Lemma initialize_without_address_witness :
  let r := mkRender aliceWallet None noSession in
  let out := initialize r (allSucceed IDL_address) delegatedState in
  completion out = Returned "sig" /\ counterAccount (final out) = None.
Proof.
  intros r.
  destruct (initialize_without_address r (allSucceed IDL_address) delegatedState
              "alice" "sig" eq_refl eq_refl eq_refl) as (Hret & _ & Ha & _).
  split; [exact Hret | exact Ha].
Defined.

(** X20. Which operation may write what. Only [delegate] and [undelegate]
    can change the delegation status; only they and the three rollup
    actions can change the cached rollup value; [increment], [decrement],
    [set], [delegate] and the rollup actions never write the account; and
    only [delegate] touches the delegating flag, which it always leaves
    down when it ran. *)
Theorem operations_frame
    (op : Operation) (r : Render) (env : Responses) (st : HookState) :
  let out := runOp op r env st in
  (op <> OpDelegate -> op <> OpUndelegate ->
     delegationStatus (final out) = delegationStatus st) /\
  (op <> OpDelegate -> op <> OpUndelegate -> isRollupAction op = false ->
     erCounterValue (final out) = erCounterValue st) /\
  (refreshes op = false ->
     counterAccount (final out) = counterAccount st) /\
  (op <> OpDelegate -> isDelegating (final out) = isDelegating st) /\
  (op = OpDelegate -> ready op r = true -> isDelegating (final out) = false).
Proof.
  intros out. subst out.
  destruct op; unfold ready; unfold_ops; unfold_memo;
    (destruct (walletReady (wallet r)) as [pk|] eqn:Hw;
     [pose proof (walletReady_publicKey _ _ Hw) as Hpk; rewrite Hpk|]);
    unfold_async; all_steps;
    repeat split; intros; try reflexivity; try congruence; try discriminate.
Qed.

Lemma operations_frame_witness :
  let out := runOp OpCommit (connected liveSession) (allSucceed DELEGATION_PROGRAM_ID)
               delegatedState in
  delegationStatus (final out) = delegated /\
  erCounterValue (final out) = Some 9%Z.
Proof.
  destruct (operations_frame OpCommit (connected liveSession)
              (allSucceed DELEGATION_PROGRAM_ID) delegatedState) as (Hs & Hv & _).
  split.
  - apply Hs; discriminate.
  - apply Hv; try discriminate. reflexivity.
Defined.
